(** * Analysis aggregation and reporting pipeline

    A shallow embedding of [src/code_analysis/analyzer.py] (class
    [CodeAnalyzer]) and of [format_code_analysis_results] from
    [src/utils/helpers.py], with the properties of the analysis pipeline
    stated and proved over it.

    The third-party tools the analyzer drives (pylint, bandit, black and the
    [ast] parser) are not code of this program: they enter as parameters of
    the section [Analyzer] and are instantiated only for concrete runs. *)

From Stdlib Require Import String Ascii List ZArith Bool Lia Permutation.
From Stdlib Require Import DecimalString.
Import ListNotations.
Set Warnings "-register-all".
Local Open Scope string_scope.
Local Open Scope Z_scope.

(* ================================================================== *)
(** ** Python values and control flow *)
(* ================================================================== *)

Module Py.

(** Exception classes that the modelled code can meet.  All of them derive
    from [Exception]; [IndentationError] and [TabError] derive from
    [SyntaxError]. *)
Inductive exn_class : Type :=
| SyntaxError
| IndentationError
| TabError
| ValueError
| IndexError
| OSError
| OtherException (name : string).

Record exn : Type := mk_exn { exn_cls : exn_class; exn_msg : string }.

(** [isinstance(e, SyntaxError)]. *)
Definition is_SyntaxError (e : exn) : bool :=
  match exn_cls e with
  | SyntaxError | IndentationError | TabError => true
  | _ => false
  end.

(** The outcome of evaluating a Python expression or call. *)
Inductive outcome (A : Type) : Type :=
| Ret (a : A)
| Raise (e : exn).
Arguments Ret {A} a.
Arguments Raise {A} e.

Definition returns {A} (o : outcome A) : bool :=
  match o with Ret _ => true | Raise _ => false end.

Definition bind {A B} (o : outcome A) (k : A -> outcome B) : outcome B :=
  match o with
  | Ret a => k a
  | Raise e => Raise e
  end.

(** [str(e)] for an exception. *)
Definition str_exn (e : exn) : string := exn_msg e.

(** [str(n)] for an [int]. *)
Definition str_int (n : Z) : string := NilZero.string_of_int (Z.to_int n).

(** [str(x)] inside an f-string for a value that may be [None]. *)
Definition str_opt (o : option string) : string :=
  match o with
  | Some s => s
  | None => "None"
  end.

(** [s.upper()] on the ASCII letters. *)
Definition upper_ascii (c : ascii) : ascii :=
  let n := nat_of_ascii c in
  if (97 <=? n)%nat && (n <=? 122)%nat then ascii_of_nat (n - 32) else c.

Fixpoint upper (s : string) : string :=
  match s with
  | EmptyString => EmptyString
  | String c r => String (upper_ascii c) (upper r)
  end.

(** [sep.join(parts)]. *)
Definition join (sep : string) (parts : list string) : string :=
  String.concat sep parts.

(** Truth value of a string and of a list. *)
Definition truthy_str (s : string) : bool :=
  match s with EmptyString => false | _ => true end.

Definition truthy_list {A} (l : list A) : bool :=
  match l with [] => false | _ => true end.

(** [x in [a, b]] for strings. *)
Definition str_in (x : string) (l : list string) : bool :=
  existsb (String.eqb x) l.

End Py.
Import Py.

Notation "x <- c ;; k" := (Py.bind c (fun x => k))
  (at level 61, c at next level, right associativity).

(* ================================================================== *)
(** ** Syntax trees as [ast.parse] builds them *)
(* ================================================================== *)

Module Ast.

Record alias : Type := mk_alias { alias_name : string; alias_asname : option string }.

(** The node classes the analyzer tells apart; anything else is [Other].
    Every constructor carries what [ast.iter_child_nodes] yields for it:
    the aliases of an import, the three groups of a class definition
    (bases and keywords, body, decorators), or a plain child list. *)
Inductive node : Type :=
| Module (body : list node)
| Import (names : list alias)
| ImportFrom (module : option string) (names : list alias) (level : Z)
| AliasNode (a : alias)
| FunctionDef (name : string) (args : list string) (lineno : Z)
              (children : list node)
| ClassDef (name : string) (lineno : Z)
           (heads body decorators : list node)
| If (children : list node)
| Try (children : list node)
| ExceptHandler (children : list node)
| For (children : list node)
| While (children : list node)
| Other (children : list node).

(** [ast.iter_child_nodes(node)]. *)
Definition iter_child_nodes (n : node) : list node :=
  match n with
  | Module body => body
  | Import names => map AliasNode names
  | ImportFrom _ names _ => map AliasNode names
  | AliasNode _ => []
  | FunctionDef _ _ _ ch => ch
  | ClassDef _ _ heads body decos => (heads ++ body ++ decos)%list
  | If ch | Try ch | ExceptHandler ch | For ch | While ch | Other ch => ch
  end.

(** Number of nodes of a tree. *)
Fixpoint size (n : node) : nat :=
  let fix sizes (l : list node) : nat :=
    match l with
    | [] => O
    | x :: r => (size x + sizes r)%nat
    end in
  match n with
  | Module body => S (sizes body)
  | Import names => S (length names)
  | ImportFrom _ names _ => S (length names)
  | AliasNode _ => 1%nat
  | FunctionDef _ _ _ ch => S (sizes ch)
  | ClassDef _ _ heads body decos =>
      S (sizes heads + (sizes body + sizes decos))
  | If ch | Try ch | ExceptHandler ch | For ch | While ch | Other ch =>
      S (sizes ch)
  end.

Definition forest_size (l : list node) : nat :=
  fold_right (fun x acc => (size x + acc)%nat) O l.

(** [ast.walk]: the queue loop
    [todo = deque([node]); while todo: node = todo.popleft();
     todo.extend(iter_child_nodes(node)); yield node].
    Every turn of the loop yields one node, so the number of nodes bounds
    the number of turns. *)
Fixpoint walk_queue (fuel : nat) (todo : list node) : list node :=
  match fuel with
  | O => []
  | S fuel' =>
      match todo with
      | [] => []
      | n :: rest => n :: walk_queue fuel' (rest ++ iter_child_nodes n)%list
      end
  end.

Definition walk (tree : node) : list node :=
  walk_queue (size tree) [tree].

(** Document order: a node, then its children's subtrees from left to
    right.  Statements nest only through fields that [iter_child_nodes]
    lists in the order of the text, so this is the order in which the
    statements appear in the source. *)
Fixpoint preorder (n : node) : list node :=
  let fix pres (l : list node) : list node :=
    match l with
    | [] => []
    | x :: r => (preorder x ++ pres r)%list
    end in
  n :: match n with
       | Module body => pres body
       | Import names => map AliasNode names
       | ImportFrom _ names _ => map AliasNode names
       | AliasNode _ => []
       | FunctionDef _ _ _ ch => pres ch
       | ClassDef _ _ heads body decos =>
           (pres heads ++ pres body ++ pres decos)%list
       | If ch | Try ch | ExceptHandler ch | For ch | While ch | Other ch =>
           pres ch
       end.

(** Grammar constraint of the parser: a [from ... import] statement names
    at least one thing. *)
Definition wf_node (n : node) : bool :=
  match n with
  | ImportFrom _ [] _ => false
  | _ => true
  end.

Definition wf_tree (tree : node) : bool := forallb wf_node (walk tree).

End Ast.
Import Ast.


(* ================================================================== *)
(** ** The records the pipeline passes around *)
(* ================================================================== *)

(** One pylint message as the consumers index it:
    [msg["type"]], [msg["message"]], [msg["line"]]. *)
Module LintMsg.
Record t : Type := mk { type : string; message : string; line : Z }.
End LintMsg.

(** A [bandit.core.issue.Issue] as [_run_bandit] reads it. *)
Module Issue.
Record t : Type := mk {
  text : string; severity : string; confidence : string;
  lineno : Z; col_offset : Z }.
End Issue.

(** The dictionary [_run_bandit] builds for one issue. *)
Module Finding.
Record t : Type := mk {
  issue : string; severity : string; confidence : string;
  line : Z; col : Z }.
End Finding.

(** The dictionary [_run_black] returns; a key that the dictionary lacks is
    [None] here. *)
Module Black.
Record t : Type := mk {
  needs_formatting : bool;
  formatted_code : option string;
  error : option string }.
End Black.

Module Complexity.
Record t : Type := mk { branches : Z; loops : Z; functions : Z; classes : Z }.
Definition zero : t := mk 0 0 0 0.
End Complexity.

Module FunctionInfo.
Record t : Type := mk { name : string; args : list string; lineno : Z }.
End FunctionInfo.

Module ClassInfo.
Record t : Type := mk { name : string; methods : list string; lineno : Z }.
End ClassInfo.

(** The dictionary [_analyze_ast] fills when the source parses. *)
Module Analysis.
Record t : Type := mk {
  imports : list string;
  functions : list FunctionInfo.t;
  classes : list ClassInfo.t;
  complexity : Complexity.t }.
End Analysis.

(** What [_analyze_ast] returns: either the dictionary whose only key is
    ["error"], or the four-key analysis dictionary. *)
Inductive ast_result : Type :=
| AstError (error : string)
| AstAnalysis (analysis : Analysis.t).

(** The value under ["error"], when the dictionary has that key. *)
Definition parse_error (r : ast_result) : option string :=
  match r with AstError e => Some e | AstAnalysis _ => None end.

(** The keys of the dictionary, as its literal in [_analyze_ast] lists
    them. *)
Definition ast_keys (r : ast_result) : list string :=
  match r with
  | AstError _ => ["error"]
  | AstAnalysis _ => ["imports"; "functions"; "classes"; "complexity"]
  end.

(** The four-key dictionary of [analyze_code].  ["pylint"] holds whatever
    [_run_pylint] returned: a reference to the reporter's message list in
    what the analyzer hands out ([L := list_ref]), the list's content in
    what a consumer reads ([L := list LintMsg.t]). *)
Module Results.
Record t (L : Type) : Type := mk {
  pylint : L;
  bandit : list Finding.t;
  black : Black.t;
  ast_analysis : ast_result }.
Arguments mk {L}.
Arguments pylint {L}.
Arguments bandit {L}.
Arguments black {L}.
Arguments ast_analysis {L}.
End Results.

(** The one list object that outlives a call: [self.pylint_reporter.messages]. *)
Inductive list_ref : Type := ReporterMessages.

Definition analysis_results : Type := Results.t (list LintMsg.t).

(* ================================================================== *)
(** ** The analyzer object and the world around it *)
(* ================================================================== *)

(** The file system and standard input, as far as the tools see them. *)
Record world : Type := mk_world {
  files : list (string * string);      (* path, content; newest first *)
  open_errors : list (string * exn);   (* paths that cannot be opened for writing *)
  stdin : string }.

Fixpoint assoc {A} (k : string) (l : list (string * A)) : option A :=
  match l with
  | [] => None
  | (k', v) :: r => if String.eqb k k' then Some v else assoc k r
  end.

Definition read_file (w : world) (path : string) : option string :=
  assoc path (files w).

(** The JSON reporter created in [__init__]. *)
Record reporter : Type := mk_reporter {
  messages : list LintMsg.t;
  source : option string }.

(** [JSONReporter()]. *)
Definition JSONReporter : reporter := mk_reporter [] None.

(** A [BanditManager]: the files it will scan, the attribute [files_data]
    that [_run_bandit] assigns, and the issues found so far. *)
Record BanditManager : Type := mk_manager {
  files_list : list string;
  files_data : list (string * string);
  results : list Issue.t }.

(** The state a call can change: the analyzer's one field and the world. *)
Record state : Type := mk_state {
  pylint_reporter : reporter;
  fs : world }.

(** [CodeAnalyzer.__init__]. *)
Definition __init__ (w : world) : state := mk_state JSONReporter w.

(** Reading a reference. *)
Definition deref (st : state) (r : list_ref) : list LintMsg.t :=
  match r with ReporterMessages => messages (pylint_reporter st) end.

Definition read (st : state) (r : Results.t list_ref) : analysis_results :=
  Results.mk (deref st (Results.pylint r)) (Results.bandit r)
             (Results.black r) (Results.ast_analysis r).

(** Statements that may change the state and may raise; the state outlives
    an exception. *)
Definition action (A : Type) : Type := state -> outcome A * state.

Definition aret {A} (a : A) : action A := fun st => (Ret a, st).

Definition abind {A B} (c : action A) (k : A -> action B) : action B :=
  fun st =>
    match c st with
    | (Ret a, st') => k a st'
    | (Raise e, st') => (Raise e, st')
    end.

Definition lift {A} (o : outcome A) : action A := fun st => (o, st).

Notation "x <~ c ;; k" := (abind c (fun x => k))
  (at level 61, c at next level, right associativity).

(** [try: body except <class> as e: handler]. *)
Definition try_except {A} (body : outcome A) (catches : exn -> bool)
    (handler : exn -> outcome A) : outcome A :=
  match body with
  | Ret a => Ret a
  | Raise e => if catches e then handler e else Raise e
  end.

(** [except Exception]: every exception of the model derives from it. *)
Definition is_Exception (e : exn) : bool := true.

(** [with open(path, 'w') as f: f.write(content)]. *)
Definition write_file (path content : string) : action unit :=
  fun st =>
    match assoc path (open_errors (fs st)) with
    | Some e => (Raise e, st)
    | None =>
        (Ret tt,
         mk_state (pylint_reporter st)
                  (mk_world ((path, content) :: files (fs st))
                            (open_errors (fs st)) (stdin (fs st))))
    end.

(** [if file_path:] on an optional string. *)
Definition truthy_path (file_path : option string) : option string :=
  match file_path with
  | Some p => if truthy_str p then Some p else None
  | None => None
  end.

(* ================================================================== *)
(** ** [CodeAnalyzer] *)
(* ================================================================== *)

Section Analyzer.

(** The third-party tools, each as a function of what it is handed.

    - [pylint_Run args w]: [pylint.lint.Run(args, reporter=..., do_exit=False)]
      in world [w]; the diagnostics it reports to the reporter, in the
      tool's order.
    - [bandit_BanditManager]: [bandit.core.manager.BanditManager()], the
      constructor called without arguments: the manager it returns, or
      the exception it raises.
    - [bandit_discover targets w], [bandit_scan files w]: the manager's
      [discover_files] and the scan behind [run_tests].
    - [black_format_str code]: [black.format_str(code, mode=black.FileMode())].
    - [ast_parse code]: [ast.parse(code)]. *)
Variable pylint_Run : list string -> world -> outcome (list LintMsg.t).
Variable bandit_BanditManager : outcome BanditManager.
Variable bandit_discover : list string -> world -> outcome (list string).
Variable bandit_scan : list string -> world -> outcome (list Issue.t).
Variable black_format_str : string -> outcome string.
Variable ast_parse : string -> outcome node.

(** *** The reporter and the manager as the analyzer uses them *)

(** [pylint.lint.Run(args, reporter=self.pylint_reporter, do_exit=False)]:
    the run hands every diagnostic to the reporter, whose
    [handle_message] appends it to [messages]. *)
Definition Run (args : list string) : action unit :=
  fun st =>
    match pylint_Run args (fs st) with
    | Ret diags =>
        (Ret tt,
         mk_state (mk_reporter (messages (pylint_reporter st) ++ diags)%list
                               (source (pylint_reporter st)))
                  (fs st))
    | Raise e => (Raise e, st)
    end.

(** [self.pylint_reporter.set_source(code)]: keeps the text on the
    reporter; the collected messages stay as they are. *)
Definition set_source (code : string) : action unit :=
  fun st =>
    (Ret tt,
     mk_state (mk_reporter (messages (pylint_reporter st)) (Some code))
              (fs st)).

(** [bandit.core.manager.BanditManager()]. *)
Definition new_BanditManager : action BanditManager :=
  lift bandit_BanditManager.

(** [b_mgr.discover_files(targets)]. *)
Definition discover_files (m : BanditManager) (targets : list string)
    : action BanditManager :=
  fun st =>
    (fl <- bandit_discover targets (fs st) ;;
     Ret (mk_manager fl (files_data m) (results m)), st).

(** [b_mgr.run_tests()]: scans the files of [files_list] as the world
    holds them at that moment.  The scan changes nothing; standard input,
    where it is read, is not used up. *)
Definition run_tests (m : BanditManager) : action BanditManager :=
  fun st =>
    (found <- bandit_scan (files_list m) (fs st) ;;
     Ret (mk_manager (files_list m) (files_data m)
                     (results m ++ found)%list), st).

(** [b_mgr.get_issue_list()]. *)
Definition get_issue_list (m : BanditManager) : list Issue.t := results m.

(** *** [_run_pylint] *)

Definition _run_pylint (code : string) (file_path : option string)
    : action list_ref :=
  match truthy_path file_path with
  | Some p =>
      _ <~ write_file p code ;;
      _ <~ Run [p] ;;
      aret ReporterMessages
  | None =>
      _ <~ Run ["--from-stdin"] ;;
      _ <~ set_source code ;;
      aret ReporterMessages
  end.

(** *** [_run_bandit] *)

Definition finding_of_issue (i : Issue.t) : Finding.t :=
  Finding.mk (Issue.text i) (Issue.severity i) (Issue.confidence i)
             (Issue.lineno i) (Issue.col_offset i).

Definition _run_bandit (code : string) (file_path : option string)
    : action (list Finding.t) :=
  b_mgr <~
    match truthy_path file_path with
    | Some p =>
        _ <~ write_file p code ;;
        b_mgr <~ new_BanditManager ;;
        b_mgr <~ discover_files b_mgr [p] ;;
        b_mgr <~ run_tests b_mgr ;;
        aret b_mgr
    | None =>
        b_mgr <~ new_BanditManager ;;
        b_mgr <~ discover_files b_mgr ["-"] ;;
        b_mgr <~ run_tests b_mgr ;;
        let b_mgr := mk_manager ["-"] (files_data b_mgr) (results b_mgr) in
        let b_mgr := mk_manager (files_list b_mgr) [("-", code)] (results b_mgr) in
        aret b_mgr
    end ;;
  aret (map finding_of_issue (get_issue_list b_mgr)).

(** *** [_run_black] *)

Definition _run_black (code : string) : outcome Black.t :=
  try_except
    (formatted_code <- black_format_str code ;;
     Ret (Black.mk (negb (String.eqb formatted_code code))
                   (Some formatted_code) None))
    is_Exception
    (fun e => Ret (Black.mk true None (Some (str_exn e)))).

(** *** [_calculate_complexity] *)

Definition count_node (c : Complexity.t) (n : node) : Complexity.t :=
  match n with
  | If _ | Try _ | ExceptHandler _ =>
      Complexity.mk (Complexity.branches c + 1) (Complexity.loops c)
                    (Complexity.functions c) (Complexity.classes c)
  | For _ | While _ =>
      Complexity.mk (Complexity.branches c) (Complexity.loops c + 1)
                    (Complexity.functions c) (Complexity.classes c)
  | FunctionDef _ _ _ _ =>
      Complexity.mk (Complexity.branches c) (Complexity.loops c)
                    (Complexity.functions c + 1) (Complexity.classes c)
  | ClassDef _ _ _ _ _ =>
      Complexity.mk (Complexity.branches c) (Complexity.loops c)
                    (Complexity.functions c) (Complexity.classes c + 1)
  | _ => c
  end.

Definition _calculate_complexity (tree : node) : Complexity.t :=
  fold_left count_node (walk tree) Complexity.zero.

(** *** [_analyze_ast] *)

(** [[n.name for n in node.body if isinstance(n, ast.FunctionDef)]]. *)
Fixpoint method_names (body : list node) : list string :=
  match body with
  | [] => []
  | FunctionDef name _ _ _ :: r => name :: method_names r
  | _ :: r => method_names r
  end.

(** One turn of the loop over [ast.walk(tree)]. *)
Definition visit (analysis : Analysis.t) (n : node) : outcome Analysis.t :=
  match n with
  | Import names =>
      Ret (Analysis.mk
             (Analysis.imports analysis ++ map alias_name names)%list
             (Analysis.functions analysis) (Analysis.classes analysis)
             (Analysis.complexity analysis))
  | ImportFrom module names _ =>
      match names with
      | [] => Raise (mk_exn IndexError "list index out of range")
      | first :: _ =>
          Ret (Analysis.mk
                 (Analysis.imports analysis
                    ++ [(str_opt module ++ "." ++ alias_name first)%string])%list
                 (Analysis.functions analysis) (Analysis.classes analysis)
                 (Analysis.complexity analysis))
      end
  | FunctionDef name args lineno _ =>
      Ret (Analysis.mk
             (Analysis.imports analysis)
             (Analysis.functions analysis
                ++ [FunctionInfo.mk name args lineno])%list
             (Analysis.classes analysis) (Analysis.complexity analysis))
  | ClassDef name lineno _ body _ =>
      Ret (Analysis.mk
             (Analysis.imports analysis) (Analysis.functions analysis)
             (Analysis.classes analysis
                ++ [ClassInfo.mk name (method_names body) lineno])%list
             (Analysis.complexity analysis))
  | _ => Ret analysis
  end.

Fixpoint visit_all (analysis : Analysis.t) (nodes : list node)
    : outcome Analysis.t :=
  match nodes with
  | [] => Ret analysis
  | n :: r => analysis' <- visit analysis n ;; visit_all analysis' r
  end.

Definition _analyze_ast (code : string) : outcome ast_result :=
  try_except
    (tree <- ast_parse code ;;
     let analysis := Analysis.mk [] [] [] (_calculate_complexity tree) in
     analysis <- visit_all analysis (walk tree) ;;
     Ret (AstAnalysis analysis))
    is_SyntaxError
    (fun e => Ret (AstError ("Syntax error: " ++ str_exn e))).

(** *** [analyze_code] *)

Definition analyze_code (code : string) (file_path : option string)
    : action (Results.t list_ref) :=
  pylint <~ _run_pylint code file_path ;;
  bandit <~ _run_bandit code file_path ;;
  black <~ lift (_run_black code) ;;
  ast_analysis <~ lift (_analyze_ast code) ;;
  let results := Results.mk pylint bandit black ast_analysis in
  aret results.

End Analyzer.

(* ================================================================== *)
(** ** [get_improvement_suggestions] *)
(* ================================================================== *)

(** [suggestions.append(x)] *)
Definition append {A} (l : list A) (x : A) : list A := (l ++ [x])%list.

Definition pylint_suggestion (msg : LintMsg.t) : string :=
  "Pylint " ++ LintMsg.type msg ++ ": " ++ LintMsg.message msg
    ++ " (line " ++ str_int (LintMsg.line msg) ++ ")".

Definition bandit_suggestion (issue : Finding.t) : string :=
  "Security issue (" ++ Finding.severity issue ++ "): " ++ Finding.issue issue
    ++ " " ++ "(line " ++ str_int (Finding.line issue) ++ ", confidence: "
    ++ Finding.confidence issue ++ ")".

Definition black_advisory : string :=
  "Code formatting: Consider using Black to format your code".

Definition modules_advisory : string :=
  "Consider breaking down the code into smaller modules".

Definition complexity_advisory : string :=
  "High cyclomatic complexity detected. Consider simplifying the logic".

Definition get_improvement_suggestions (analysis_results : analysis_results)
    : list string :=
  let suggestions : list string := [] in
  (* Pylint suggestions *)
  let suggestions :=
    fold_left
      (fun suggestions msg =>
         if str_in (LintMsg.type msg) ["error"; "warning"]
         then append suggestions (pylint_suggestion msg)
         else suggestions)
      (Results.pylint analysis_results) suggestions in
  (* Bandit suggestions *)
  let suggestions :=
    fold_left
      (fun suggestions issue =>
         if str_in (Finding.severity issue) ["HIGH"; "MEDIUM"]
         then append suggestions (bandit_suggestion issue)
         else suggestions)
      (Results.bandit analysis_results) suggestions in
  (* Black suggestions *)
  let suggestions :=
    if Black.needs_formatting (Results.black analysis_results)
    then append suggestions black_advisory
    else suggestions in
  (* AST analysis suggestions *)
  match Results.ast_analysis analysis_results with
  | AstError _ => suggestions
  | AstAnalysis ast_analysis =>
      let complexity := Analysis.complexity ast_analysis in
      let suggestions :=
        if 10 <? Complexity.functions complexity
        then append suggestions modules_advisory
        else suggestions in
      let suggestions :=
        if 5 <? Complexity.branches complexity
        then append suggestions complexity_advisory
        else suggestions in
      suggestions
  end.

(* ================================================================== *)
(** ** [format_code_analysis_results] *)
(* ================================================================== *)

Definition pylint_line (msg : LintMsg.t) : string :=
  "[" ++ upper (LintMsg.type msg) ++ "] Line " ++ str_int (LintMsg.line msg)
    ++ ": " ++ LintMsg.message msg.

Definition bandit_line (issue : Finding.t) : string :=
  "[" ++ Finding.severity issue ++ "] Line " ++ str_int (Finding.line issue)
    ++ ": " ++ Finding.issue issue ++ " "
    ++ "(Confidence: " ++ Finding.confidence issue ++ ")".

Definition newline : string := String (ascii_of_nat 10) EmptyString.

Definition pylint_header : string := "=== Pylint Analysis ===".
Definition bandit_header : string :=
  newline ++ "=== Security Analysis (Bandit) ===".
Definition black_header : string :=
  newline ++ "=== Code Formatting (Black) ===".
Definition structure_header : string :=
  newline ++ "=== Code Structure Analysis ===".

(** [black_results.get("error")] as a condition. *)
Definition truthy_opt_str (o : option string) : bool :=
  match o with Some s => truthy_str s | None => false end.

(** The list [output] at the [return] statement. *)
Definition report_lines (results : analysis_results) : list string :=
  let output : list string := [] in
  (* Format Pylint results *)
  let output :=
    if truthy_list (Results.pylint results) then
      let output := append output pylint_header in
      fold_left (fun output msg => append output (pylint_line msg))
                (Results.pylint results) output
    else output in
  (* Format Bandit results *)
  let output :=
    if truthy_list (Results.bandit results) then
      let output := append output bandit_header in
      fold_left (fun output issue => append output (bandit_line issue))
                (Results.bandit results) output
    else output in
  (* Format Black results: the dictionary always holds "needs_formatting",
     so [results.get("black")] is true *)
  let output :=
    let black_results := Results.black results in
    let output := append output black_header in
    let output :=
      if Black.needs_formatting black_results
      then append output
             "Code needs formatting. Consider using Black to format the code."
      else output in
    match Black.error black_results with
    | Some e =>
        if truthy_str e
        then append output ("Error during formatting check: " ++ e)
        else output
    | None => output
    end in
  (* Format AST analysis: neither dictionary shape is empty, so
     [results.get("ast_analysis")] is true *)
  match Results.ast_analysis results with
  | AstError _ => output
  | AstAnalysis ast_results =>
      let output := append output structure_header in
      let complexity := Analysis.complexity ast_results in
      let output :=
        append output ("Functions: " ++ str_int (Complexity.functions complexity)) in
      let output :=
        append output ("Classes: " ++ str_int (Complexity.classes complexity)) in
      let output :=
        append output ("Branches: " ++ str_int (Complexity.branches complexity)) in
      let output :=
        append output ("Loops: " ++ str_int (Complexity.loops complexity)) in
      let output :=
        if truthy_list (Analysis.imports ast_results) then
          let output := append output (newline ++ "Imports:") in
          fold_left (fun output imp => append output ("  - " ++ imp))
                    (Analysis.imports ast_results) output
        else output in
      let output :=
        if truthy_list (Analysis.functions ast_results) then
          let output := append output (newline ++ "Functions:") in
          fold_left
            (fun output func =>
               append output
                 ("  - " ++ FunctionInfo.name func ++ "("
                    ++ join ", " (FunctionInfo.args func) ++ ")"))
            (Analysis.functions ast_results) output
        else output in
      let output :=
        if truthy_list (Analysis.classes ast_results) then
          let output := append output (newline ++ "Classes:") in
          fold_left
            (fun output cls =>
               let output := append output ("  - " ++ ClassInfo.name cls) in
               fold_left (fun output method => append output ("    * " ++ method))
                         (ClassInfo.methods cls) output)
            (Analysis.classes ast_results) output
        else output in
      output
  end.

Definition format_code_analysis_results (results : analysis_results) : string :=
  join newline (report_lines results).

(** [format_code_analysis_results] on a dictionary that need not be
    complete: [results.get(key)] is computed for each of the four keys.  An
    entry is [None] when the key is missing or holds [None] or an empty
    dictionary; a list entry may also be empty.  A formatting dictionary
    without ["needs_formatting"] reads the flag as false, and an analysis
    dictionary without ["error"] holds its four keys. *)
Module Raw.

Record results : Type := mk {
  pylint : option (list LintMsg.t);
  bandit : option (list Finding.t);
  black : option Black.t;
  ast_analysis : option ast_result }.

(** [if results.get("pylint"): ...] *)
Definition pylint_block (results : results) (output : list string)
    : list string :=
  match pylint results with
  | Some msgs =>
      if truthy_list msgs then
        let output := append output pylint_header in
        fold_left (fun output msg => append output (pylint_line msg))
                  msgs output
      else output
  | None => output
  end.

(** [if results.get("bandit"): ...] *)
Definition bandit_block (results : results) (output : list string)
    : list string :=
  match bandit results with
  | Some issues =>
      if truthy_list issues then
        let output := append output bandit_header in
        fold_left (fun output issue => append output (bandit_line issue))
                  issues output
      else output
  | None => output
  end.

(** [if results.get("black"): ...] *)
Definition black_block (results : results) (output : list string)
    : list string :=
  match black results with
  | Some black_results =>
      let output := append output black_header in
      let output :=
        if Black.needs_formatting black_results
        then append output
               "Code needs formatting. Consider using Black to format the code."
        else output in
      match Black.error black_results with
      | Some e =>
          if truthy_str e
          then append output ("Error during formatting check: " ++ e)
          else output
      | None => output
      end
  | None => output
  end.

(** [if results.get("ast_analysis"): ...] *)
Definition ast_block (results : results) (output : list string)
    : list string :=
  match ast_analysis results with
  | Some (AstError _) => output
  | Some (AstAnalysis ast_results) =>
      let output := append output structure_header in
      let complexity := Analysis.complexity ast_results in
      let output :=
        append output ("Functions: " ++ str_int (Complexity.functions complexity)) in
      let output :=
        append output ("Classes: " ++ str_int (Complexity.classes complexity)) in
      let output :=
        append output ("Branches: " ++ str_int (Complexity.branches complexity)) in
      let output :=
        append output ("Loops: " ++ str_int (Complexity.loops complexity)) in
      let output :=
        if truthy_list (Analysis.imports ast_results) then
          let output := append output (newline ++ "Imports:") in
          fold_left (fun output imp => append output ("  - " ++ imp))
                    (Analysis.imports ast_results) output
        else output in
      let output :=
        if truthy_list (Analysis.functions ast_results) then
          let output := append output (newline ++ "Functions:") in
          fold_left
            (fun output func =>
               append output
                 ("  - " ++ FunctionInfo.name func ++ "("
                    ++ join ", " (FunctionInfo.args func) ++ ")"))
            (Analysis.functions ast_results) output
        else output in
      let output :=
        if truthy_list (Analysis.classes ast_results) then
          let output := append output (newline ++ "Classes:") in
          fold_left
            (fun output cls =>
               let output := append output ("  - " ++ ClassInfo.name cls) in
               fold_left (fun output method => append output ("    * " ++ method))
                         (ClassInfo.methods cls) output)
            (Analysis.classes ast_results) output
        else output in
      output
  | None => output
  end.

(** The list [output] at the [return] statement. *)
Definition report_lines (results : results) : list string :=
  let output : list string := [] in
  let output := pylint_block results output in
  let output := bandit_block results output in
  let output := black_block results output in
  let output := ast_block results output in
  output.

Definition format_code_analysis_results (results : results) : string :=
  join newline (report_lines results).

(** A complete result as a dictionary. *)
Definition of_results (r : analysis_results) : results :=
  mk (Some (Results.pylint r)) (Some (Results.bandit r))
     (Some (Results.black r)) (Some (Results.ast_analysis r)).

(** [results.get(key)] as a condition, for a list entry. *)
Definition truthy_entry {A} (entry : option (list A)) : bool :=
  match entry with Some l => truthy_list l | None => false end.

End Raw.

(* ================================================================== *)
(** ** What each statement and each section contributes *)
(* ================================================================== *)

(** The entries one node adds to ["imports"]. *)
Definition import_entries (n : node) : list string :=
  match n with
  | Import names => map alias_name names
  | ImportFrom module (first :: _) _ =>
      [str_opt module ++ "." ++ alias_name first]
  | _ => []
  end.

Definition function_entries (n : node) : list FunctionInfo.t :=
  match n with
  | FunctionDef name args lineno _ => [FunctionInfo.mk name args lineno]
  | _ => []
  end.

Definition class_entries (n : node) : list ClassInfo.t :=
  match n with
  | ClassDef name lineno _ body _ =>
      [ClassInfo.mk name (method_names body) lineno]
  | _ => []
  end.

Definition is_import (n : node) : bool :=
  match n with
  | Import _ | ImportFrom _ _ _ => true
  | _ => false
  end.

(** Every node strictly below [n], in document order. *)
Definition descendants (n : node) : list node :=
  flat_map preorder (iter_child_nodes n).

(** A module whose import statements all stand at the top level. *)
Definition imports_at_top_level (tree : node) : bool :=
  match tree with
  | Module body =>
      forallb (fun stmt => forallb (fun d => negb (is_import d)) (descendants stmt))
              body
  | _ => false
  end.

(** The report, section by section, as the specification words it. *)
Definition spec_lint_section (r : analysis_results) : list string :=
  match Results.pylint r with
  | [] => []
  | _ :: _ => pylint_header :: map pylint_line (Results.pylint r)
  end.

Definition spec_security_section (r : analysis_results) : list string :=
  match Results.bandit r with
  | [] => []
  | _ :: _ => bandit_header :: map bandit_line (Results.bandit r)
  end.

Definition spec_formatting_section (r : analysis_results) : list string :=
  (black_header
   :: (if Black.needs_formatting (Results.black r)
       then ["Code needs formatting. Consider using Black to format the code."]
       else [])
   ++ (if truthy_opt_str (Black.error (Results.black r))
       then [("Error during formatting check: "
               ++ str_opt (Black.error (Results.black r)))%string]
       else []))%list.

Definition bullet_block {A} (title : string) (render : A -> list string)
    (items : list A) : list string :=
  match items with
  | [] => []
  | _ => (newline ++ title) :: flat_map render items
  end.

Definition spec_structure_section (r : analysis_results) : list string :=
  match Results.ast_analysis r with
  | AstError _ => []
  | AstAnalysis a =>
      let c := Analysis.complexity a in
      (structure_header
       :: ("Functions: " ++ str_int (Complexity.functions c))%string
       :: ("Classes: " ++ str_int (Complexity.classes c))%string
       :: ("Branches: " ++ str_int (Complexity.branches c))%string
       :: ("Loops: " ++ str_int (Complexity.loops c))%string
       :: bullet_block "Imports:" (fun imp => [("  - " ++ imp)%string])
            (Analysis.imports a)
       ++ bullet_block "Functions:"
            (fun f => [("  - " ++ FunctionInfo.name f ++ "("
                         ++ join ", " (FunctionInfo.args f) ++ ")")%string])
            (Analysis.functions a)
       ++ bullet_block "Classes:"
            (fun c => ("  - " ++ ClassInfo.name c)%string
                        :: map (fun m => ("    * " ++ m)%string)
                               (ClassInfo.methods c))
            (Analysis.classes a))%list
  end.

(* ================================================================== *)
(** ** Stand-ins for the tools, for concrete runs *)
(* ================================================================== *)

Module Sample.

Definition empty_world : world := mk_world [] [] EmptyString.

(** A linter that warns about a file starting with an import. *)
Definition unused_import : LintMsg.t :=
  LintMsg.mk "warning" "Unused import os" 1.

Definition pylint_Run (args : list string) (w : world)
    : outcome (list LintMsg.t) :=
  match args with
  | [p] =>
      match read_file w p with
      | Some content =>
          Ret (if String.prefix "import " content then [unused_import] else [])
      | None => Ret []
      end
  | _ => Ret []
  end.

(** A linter that cannot run. *)
Definition crash : exn := mk_exn (OtherException "RuntimeError") "pylint crashed".

Definition broken_pylint_Run (args : list string) (w : world)
    : outcome (list LintMsg.t) := Raise crash.

(** A scanner that flags a file starting with a call of [eval]; ["-"]
    names standard input. *)
Definition eval_issue : Issue.t :=
  Issue.mk "Use of possibly insecure function - consider using safer ast.literal_eval."
           "MEDIUM" "HIGH" 1 0.

(** A manager that can be built without arguments. *)
Definition new_manager : outcome BanditManager := Ret (mk_manager [] [] []).

Definition bandit_discover (targets : list string) (w : world)
    : outcome (list string) := Ret targets.

Definition content_of (w : world) (f : string) : option string :=
  if String.eqb f "-" then Some (stdin w) else read_file w f.

Definition bandit_scan (fl : list string) (w : world) : outcome (list Issue.t) :=
  Ret (flat_map
         (fun f =>
            match content_of w f with
            | Some c => if String.prefix "eval(" c then [eval_issue] else []
            | None => []
            end) fl).

Definition src_scenario1 : string :=
  "import os" ++ newline ++ "def f(a, b):" ++ newline ++ "    pass" ++ newline.
Definition src_invalid : string := "def f(:" ++ newline.
Definition src_nested : string :=
  "def f():" ++ newline ++ "    import a" ++ newline ++ "import b" ++ newline.
Definition src_relative : string := "from . import Y" ++ newline.
Definition src_eval : string := "eval(input())" ++ newline.

(** [ast.parse] on the sources above. *)
Definition tree_scenario1 : node :=
  Module [ Import [mk_alias "os" None];
           FunctionDef "f" ["a"; "b"] 2
             [ Other [Other []; Other []]; Other [] ] ].

Definition tree_nested : node :=
  Module [ FunctionDef "f" [] 1 [ Other []; Import [mk_alias "a" None] ];
           Import [mk_alias "b" None] ].

Definition tree_relative : node :=
  Module [ ImportFrom None [mk_alias "Y" None] 1 ].

Definition tree_eval : node :=
  Module [ Other [ Other [ Other [Other []]; Other [ Other [Other []] ] ] ] ].

Definition invalid_syntax : exn :=
  mk_exn SyntaxError "invalid syntax (<unknown>, line 1)".

Definition ast_parse (code : string) : outcome node :=
  if String.eqb code src_scenario1 then Ret tree_scenario1
  else if String.eqb code src_nested then Ret tree_nested
  else if String.eqb code src_relative then Ret tree_relative
  else if String.eqb code src_eval then Ret tree_eval
  else Raise invalid_syntax.

(** A formatter that leaves the sources above alone and fails on what
    does not parse. *)
Definition black_format_str (code : string) : outcome string :=
  match ast_parse code with
  | Ret _ => Ret code
  | Raise _ =>
      Raise (mk_exn (OtherException "InvalidInput")
                    ("Cannot parse: 1:6: " ++ code))
  end.

End Sample.

(* ================================================================== *)
(** ** Node classes, for counting *)
(* ================================================================== *)

(** [isinstance(node, (ast.If, ast.Try, ast.ExceptHandler))]. *)
Definition is_branch (n : node) : bool :=
  match n with
  | If _ | Try _ | ExceptHandler _ => true
  | _ => false
  end.

(** [isinstance(node, (ast.For, ast.While))]. *)
Definition is_loop (n : node) : bool :=
  match n with
  | For _ | While _ => true
  | _ => false
  end.

(** [isinstance(node, ast.FunctionDef)]. *)
Definition is_function (n : node) : bool :=
  match n with
  | FunctionDef _ _ _ _ => true
  | _ => false
  end.

(** [isinstance(node, ast.ClassDef)]. *)
Definition is_class (n : node) : bool :=
  match n with
  | ClassDef _ _ _ _ _ => true
  | _ => false
  end.

(** How many nodes of a list pass a test. *)
Definition count (p : node -> bool) (nodes : list node) : Z :=
  Z.of_nat (length (filter p nodes)).

(* ================================================================== *)
(** ** The analysis tab of [main.py] *)
(* ================================================================== *)

(** A message box the window has shown. *)
Inductive dialog : Type :=
| Warning (title text : string)
| Critical (title text : string).

(** What the analysis tab shows: the label with the selected path, the
    read-only result area, the progress bar, the status bar, and the
    message boxes shown so far (oldest first). *)
Record window : Type := mk_window {
  file_path_label : string;
  analysis_text : string;
  progress_visible : bool;
  progress_range : Z * Z;
  status_message : string;
  dialogs : list dialog }.

(** The signal a [WorkerThread] emits at the end of [run]. *)
Inductive signal (A : Type) : Type :=
| finished (result : A)
| error (message : string).
Arguments finished {A} result.
Arguments error {A} message.

(** [WorkerThread.run]:
    [try: result = self.func(...); self.finished.emit(result)
     except Exception as e: self.error.emit(str(e))];
    every exception of the model derives from [Exception]. *)
Definition WorkerThread_run {A} (func : action A) : state -> signal A * state :=
  fun st =>
    match func st with
    | (Ret result, st') => (finished result, st')
    | (Raise e, st') => (error (str_exn e), st')
    end.

(** [MainWindow.handle_analysis_results]; the results are read when the
    slot runs. *)
Definition handle_analysis_results (results : analysis_results) (win : window)
    : window :=
  let formatted_results := format_code_analysis_results results in
  mk_window (file_path_label win) formatted_results false (progress_range win)
            "Analysis completed" (dialogs win).

(** [MainWindow.handle_error]. *)
Definition handle_error (error_msg : string) (win : window) : window :=
  mk_window (file_path_label win) (analysis_text win) false (progress_range win)
            "Error occurred"
            (dialogs win ++ [Critical "Error" ("An error occurred: " ++ error_msg)])%list.

(** [MainWindow.clear_analysis]. *)
Definition clear_analysis (win : window) : window :=
  mk_window "No file selected" EmptyString (progress_visible win)
            (progress_range win) (status_message win) (dialogs win).

(** [MainWindow.select_file] once the file dialog has returned [file_name]:
    an empty name (dialog cancelled) changes nothing. *)
Definition select_file (file_name : string) (win : window) : window :=
  if truthy_str file_name
  then mk_window file_name (analysis_text win) (progress_visible win)
                 (progress_range win) (status_message win) (dialogs win)
  else win.

(** [with open(file_path, 'r') as f: code = f.read()].  The text is handed
    over as the world holds it; the newline translation of text mode is
    left out. *)
Definition open_read (w : world) (file_path : string) : outcome string :=
  match read_file w file_path with
  | Some content => Ret content
  | None =>
      Raise (mk_exn (OtherException "FileNotFoundError")
                    ("[Errno 2] No such file or directory: '" ++ file_path ++ "'"))
  end.

Section MainWindow.

Variable pylint_Run : list string -> world -> outcome (list LintMsg.t).
Variable bandit_BanditManager : outcome BanditManager.
Variable bandit_discover : list string -> world -> outcome (list string).
Variable bandit_scan : list string -> world -> outcome (list Issue.t).
Variable black_format_str : string -> outcome string.
Variable ast_parse : string -> outcome node.

(** [MainWindow.analyze_code], followed by the worker it starts and by the
    slot that the worker's signal reaches: one whole click on
    [Analyze Code], from the button to the updated window. *)
Definition MainWindow_analyze_code (win : window) (st : state)
    : window * state :=
  let file_path := file_path_label win in
  if String.eqb file_path "No file selected" then
    (mk_window (file_path_label win) (analysis_text win) (progress_visible win)
               (progress_range win) (status_message win)
               (dialogs win
                  ++ [Warning "Warning" "Please select a file to analyze."])%list,
     st)
  else
    match open_read (fs st) file_path with
    | Raise e =>
        (mk_window (file_path_label win) (analysis_text win)
                   (progress_visible win) (progress_range win)
                   (status_message win)
                   (dialogs win
                      ++ [Critical "Error" ("Error reading file: " ++ str_exn e)])%list,
         st)
    | Ret code =>
        let win :=
          mk_window (file_path_label win) (analysis_text win) true (0, 0)
                    "Analyzing code..." (dialogs win) in
        (* self.worker = WorkerThread(self.code_analyzer.analyze_code,
                                      code, file_path); self.worker.start() *)
        match WorkerThread_run
                (analyze_code pylint_Run bandit_BanditManager bandit_discover bandit_scan
                              black_format_str ast_parse code (Some file_path))
                st with
        | (finished results, st') =>
            (handle_analysis_results (read st' results) win, st')
        | (error message, st') => (handle_error message win, st')
        end
    end.

End MainWindow.

(** The world after [content] has been written to [path]. *)
Definition written (path content : string) (w : world) : world :=
  mk_world ((path, content) :: files w) (open_errors w) (stdin w).

(** More stand-ins, for the runs of the later sections. *)
Module SampleMore.

Definition src_class : string :=
  "class C:" ++ newline ++ "    def g(self):" ++ newline
    ++ "        for x in y:" ++ newline
    ++ "            if x: pass" ++ newline.

(** [ast.parse(src_class)]. *)
Definition tree_class : node :=
  Module
    [ ClassDef "C" 1 []
        [ FunctionDef "g" ["self"] 2
            [ Other [Other []];
              For [ Other []; Other [];
                    If [ Other []; Other [] ] ] ] ]
        [] ].

Definition src_nul : string := String (ascii_of_nat 0) EmptyString.

Definition null_bytes : exn :=
  mk_exn ValueError "source code string cannot contain null bytes".

(** A parser that knows [src_class] and refuses a null byte the way the
    interpreters before 3.12 do. *)
Definition ast_parse (code : string) : outcome node :=
  if String.eqb code src_class then Ret tree_class
  else if String.eqb code src_nul then Raise null_bytes
  else Sample.ast_parse code.

(** The constructor of the released library, which requires its
    configuration and aggregation arguments. *)
Definition missing_arguments : exn :=
  mk_exn (OtherException "TypeError")
         "BanditManager.__init__() missing 2 required positional arguments: 'config' and 'agg_type'".

Definition released_BanditManager : outcome BanditManager :=
  Raise missing_arguments.

(** A formatter that fails without a message. *)
Definition silent_failure : exn := mk_exn (OtherException "AssertionError") EmptyString.

Definition silent_black_format_str (code : string) : outcome string :=
  Raise silent_failure.

(** A world with one file, and one where that file cannot be written. *)
Definition one_file : world :=
  mk_world [("a.py", Sample.src_scenario1)] [] EmptyString.

Definition permission_denied : exn :=
  mk_exn OSError "[Errno 13] Permission denied: 'a.py'".

Definition read_only_file : world :=
  mk_world [("a.py", Sample.src_scenario1)] [("a.py", permission_denied)]
           EmptyString.

(** The window at start-up, and with a file selected. *)
Definition fresh_window : window :=
  mk_window "No file selected" EmptyString false (0, 100) "Ready" [].

Definition window_on_a_py : window := select_file "a.py" fresh_window.

End SampleMore.

(* ================================================================== *)
(** ** Loops that append *)
(* ================================================================== *)

Section Loops.

Context {A B : Type}.

Lemma fold_append_filter (p : A -> bool) (f : A -> B) (l : list A) (acc : list B) :
  fold_left (fun acc x => if p x then append acc (f x) else acc) l acc
  = (acc ++ map f (filter p l))%list.
Proof.
  revert acc; induction l as [|x l IH]; intros acc; simpl.
  - now rewrite app_nil_r.
  - rewrite IH. destruct (p x); simpl; trivial.
    unfold append. now rewrite <- app_assoc.
Qed.

Lemma fold_append_map (f : A -> B) (l : list A) (acc : list B) :
  fold_left (fun acc x => append acc (f x)) l acc = (acc ++ map f l)%list.
Proof.
  revert acc; induction l as [|x l IH]; intros acc; simpl.
  - now rewrite app_nil_r.
  - rewrite IH. unfold append. now rewrite <- app_assoc.
Qed.

Lemma fold_append_flat_map (f : A -> list B) (step : list B -> A -> list B)
    (Hstep : forall acc x, step acc x = (acc ++ f x)%list)
    (l : list A) (acc : list B) :
  fold_left step l acc = (acc ++ flat_map f l)%list.
Proof.
  revert acc; induction l as [|x l IH]; intros acc; simpl.
  - now rewrite app_nil_r.
  - rewrite IH, Hstep. now rewrite <- app_assoc.
Qed.

End Loops.

(* ================================================================== *)
(** ** The tree walk *)
(* ================================================================== *)

Section Walk.

(** The local loops of [size] and [preorder]. *)
Local Abbreviation sizes :=
  (fix sizes (l : list node) : nat :=
     match l with
     | [] => O
     | x :: r => (size x + sizes r)%nat
     end).

Local Abbreviation pres :=
  (fix pres (l : list node) : list node :=
     match l with
     | [] => []
     | x :: r => (preorder x ++ pres r)%list
     end).

Lemma sizes_forest (l : list node) : sizes l = forest_size l.
Proof. induction l as [|x l IH]; simpl; [trivial | now rewrite IH]. Qed.

Lemma pres_flat_map (l : list node) : pres l = flat_map preorder l.
Proof. induction l as [|x l IH]; simpl; [trivial | now rewrite IH]. Qed.

Lemma forest_size_app (l1 l2 : list node) :
  forest_size (l1 ++ l2) = (forest_size l1 + forest_size l2)%nat.
Proof. induction l1 as [|x l1 IH]; simpl; [trivial | rewrite IH; lia]. Qed.

Lemma forest_size_aliases (names : list alias) :
  forest_size (map AliasNode names) = length names.
Proof. induction names as [|a l IH]; simpl; [trivial | now rewrite IH]. Qed.

Lemma preorder_aliases (names : list alias) :
  flat_map preorder (map AliasNode names) = map AliasNode names.
Proof. induction names as [|a l IH]; simpl; [trivial | now rewrite IH]. Qed.

(** A tree has one node more than its children's subtrees. *)
Lemma size_children (n : node) :
  size n = S (forest_size (iter_child_nodes n)).
Proof.
  destruct n; simpl;
    rewrite ?sizes_forest, ?forest_size_app, ?forest_size_aliases; trivial.
Qed.

Lemma size_pos (n : node) : (1 <= size n)%nat.
Proof. rewrite size_children; lia. Qed.

Lemma forest_size_length (l : list node) : (length l <= forest_size l)%nat.
Proof.
  induction l as [|x l IH]; simpl; [lia | pose proof (size_pos x); lia].
Qed.

(** Document order lists a node, then the subtrees of its children. *)
Lemma preorder_children (n : node) :
  preorder n = n :: flat_map preorder (iter_child_nodes n).
Proof.
  destruct n; simpl;
    rewrite ?pres_flat_map, ?flat_map_app, ?preorder_aliases; trivial.
Qed.

(** With one unit of fuel per node the queue loop runs to the end and
    yields every node of the queued trees exactly once. *)
Lemma walk_queue_complete (fuel : nat) :
  forall todo, (forest_size todo <= fuel)%nat ->
    Permutation (walk_queue fuel todo) (flat_map preorder todo).
Proof.
  induction fuel as [|fuel IH]; intros todo Hsz.
  - destruct todo as [|n rest]; simpl; [constructor|].
    simpl in Hsz. pose proof (size_pos n). lia.
  - destruct todo as [|n rest]; simpl; [constructor|].
    rewrite preorder_children. simpl. apply perm_skip.
    etransitivity.
    + apply IH. simpl in Hsz. rewrite forest_size_app.
      rewrite size_children in Hsz. lia.
    + rewrite flat_map_app. apply Permutation_app_comm.
Qed.

Lemma walk_complete (tree : node) : Permutation (walk tree) (preorder tree).
Proof.
  unfold walk. etransitivity.
  - apply walk_queue_complete. simpl. lia.
  - simpl. now rewrite app_nil_r.
Qed.

Lemma in_walk_iff (tree n : node) : In n (walk tree) <-> In n (preorder tree).
Proof.
  split; apply Permutation_in; [| symmetry]; apply walk_complete.
Qed.

(** The loop yields the queue as it stands before it reaches any node that
    the queued ones contribute: breadth-first order. *)
Lemma walk_queue_level (front : list node) :
  forall fuel back,
    walk_queue (length front + fuel) (front ++ back)
    = (front ++ walk_queue fuel (back ++ flat_map iter_child_nodes front))%list.
Proof.
  induction front as [|n front IH]; intros fuel back; simpl.
  - now rewrite app_nil_r.
  - f_equal. rewrite <- app_assoc. rewrite IH. now rewrite <- app_assoc.
Qed.

Lemma walk_queue_incl (fuel : nat) :
  forall todo n, In n (walk_queue fuel todo) -> In n (flat_map preorder todo).
Proof.
  induction fuel as [|fuel IH]; intros todo n Hin; simpl in Hin; [easy|].
  destruct todo as [|m rest]; [easy|].
  simpl. rewrite preorder_children.
  destruct Hin as [->|Hin]; [now left|].
  apply IH in Hin. rewrite flat_map_app in Hin.
  right. apply in_or_app. apply in_app_or in Hin. tauto.
Qed.

(** The walk of a module: the module, its statements in the order of the
    text, then everything below them. *)
Lemma walk_module (body : list node) :
  exists deeper,
    walk (Module body) = (Module body :: body ++ deeper)%list
    /\ forall n, In n deeper -> In n (flat_map descendants body).
Proof.
  exists (walk_queue (forest_size body - length body)
                     (flat_map iter_child_nodes body)).
  split.
  - unfold walk. rewrite size_children. simpl.
    f_equal.
    pose proof (forest_size_length body) as Hlen.
    pose proof (walk_queue_level body (forest_size body - length body) [])
      as Hlevel.
    rewrite app_nil_r in Hlevel. simpl in Hlevel.
    replace (length body + (forest_size body - length body))%nat
      with (forest_size body) in Hlevel by lia.
    exact Hlevel.
  - intros n Hin. apply walk_queue_incl in Hin.
    clear - Hin. induction body as [|s body IH]; simpl in *; [easy|].
    rewrite flat_map_app in Hin. apply in_or_app.
    apply in_app_or in Hin. destruct Hin; [left | right; auto].
    assumption.
Qed.

End Walk.

(* ================================================================== *)
(** ** The structural inspector *)
(* ================================================================== *)

Lemma flat_map_nil {A B} (f : A -> list B) (l : list A) :
  (forall x, In x l -> f x = []) -> flat_map f l = [].
Proof.
  induction l as [|x l IH]; intros H; simpl; [trivial|].
  rewrite (H x) by now left. apply IH. intros y Hy. apply H. now right.
Qed.

Lemma import_entries_other (n : node) :
  is_import n = false -> import_entries n = [].
Proof. destruct n; simpl; congruence. Qed.

(** The loop body never fails on a grammatical node, and adds exactly the
    node's entries. *)
Lemma visit_wf (a : Analysis.t) (n : node) :
  wf_node n = true ->
  visit a n
  = Ret (Analysis.mk (Analysis.imports a ++ import_entries n)
                     (Analysis.functions a ++ function_entries n)
                     (Analysis.classes a ++ class_entries n)
                     (Analysis.complexity a)).
Proof.
  intros Hwf. destruct a as [im fu cl co].
  destruct n; simpl; rewrite ?app_nil_r; trivial.
  destruct names; [discriminate Hwf | reflexivity].
Qed.

Lemma visit_all_wf (nodes : list node) :
  forall a, forallb wf_node nodes = true ->
    visit_all a nodes
    = Ret (Analysis.mk
             (Analysis.imports a ++ flat_map import_entries nodes)
             (Analysis.functions a ++ flat_map function_entries nodes)
             (Analysis.classes a ++ flat_map class_entries nodes)
             (Analysis.complexity a)).
Proof.
  induction nodes as [|n nodes IH]; intros a Hwf; simpl.
  - destruct a; simpl; now rewrite !app_nil_r.
  - simpl in Hwf. apply andb_prop in Hwf as [Hn Hrest].
    rewrite (visit_wf a n Hn). simpl. rewrite (IH _ Hrest). simpl.
    now rewrite <- !app_assoc.
Qed.

(** The counting loop adds one to ["functions"] for each function
    definition it meets, and for nothing else. *)
Lemma count_functions (nodes : list node) :
  forall c,
    Complexity.functions (fold_left count_node nodes c)
    = Complexity.functions c
      + Z.of_nat (length (flat_map function_entries nodes)).
Proof.
  induction nodes as [|n nodes IH]; intros c; simpl; [lia|].
  rewrite IH. rewrite length_app.
  destruct n; simpl; lia.
Qed.

Section Inspector.

Variable ast_parse : string -> outcome node.

(** What [_analyze_ast] returns when the source parses. *)
Lemma analyze_ast_parsed (code : string) (tree : node) :
  ast_parse code = Ret tree ->
  wf_tree tree = true ->
  _analyze_ast ast_parse code
  = Ret (AstAnalysis
           (Analysis.mk (flat_map import_entries (walk tree))
                        (flat_map function_entries (walk tree))
                        (flat_map class_entries (walk tree))
                        (_calculate_complexity tree))).
Proof.
  intros Hparse Hwf. unfold _analyze_ast. rewrite Hparse. simpl.
  rewrite (visit_all_wf _ _ Hwf). reflexivity.
Qed.

(** What [_analyze_ast] returns when the parser raises a [SyntaxError]. *)
Lemma analyze_ast_syntax_error (code : string) (e : exn) :
  ast_parse code = Raise e ->
  is_SyntaxError e = true ->
  _analyze_ast ast_parse code = Ret (AstError ("Syntax error: " ++ str_exn e)).
Proof.
  intros Hparse Hcls. unfold _analyze_ast. rewrite Hparse. simpl.
  now rewrite Hcls.
Qed.

(** C3, as the code has it.  When the parser raises on the input,
    [_analyze_ast] catches the exception only if it is a [SyntaxError]:
    then it returns, without raising, the dictionary whose only key is
    ["error"], holding ["Syntax error: "] followed by the text of the
    parser's error, so that none of ["imports"], ["functions"],
    ["classes"] and ["complexity"] is a key of it.  Any other exception of
    the parser is raised past [_analyze_ast]. *)
Theorem analyze_ast_on_parser_exception (code : string) (e : exn) :
  ast_parse code = Raise e ->
  (is_SyntaxError e = true ->
   exists r,
     _analyze_ast ast_parse code = Ret r
     /\ r = AstError ("Syntax error: " ++ str_exn e)
     /\ parse_error r = Some ("Syntax error: " ++ str_exn e)
     /\ ast_keys r = ["error"])
  /\ (is_SyntaxError e = false ->
      _analyze_ast ast_parse code = Raise e).
Proof.
  intros Hparse. unfold _analyze_ast. rewrite Hparse. simpl.
  split; intros Hcls; rewrite Hcls.
  - eexists. repeat split; reflexivity.
  - reflexivity.
Qed.

(** C4.  When the source parses (to a grammatical tree), the summary has no
    parse error and its ["functions"] counter equals the number of entries
    of the function inventory gathered by the walk. *)
Theorem function_count_is_inventory_length (code : string) (tree : node) :
  ast_parse code = Ret tree ->
  wf_tree tree = true ->
  exists a,
    _analyze_ast ast_parse code = Ret (AstAnalysis a)
    /\ parse_error (AstAnalysis a) = None
    /\ Complexity.functions (Analysis.complexity a)
       = Z.of_nat (length (Analysis.functions a)).
Proof.
  intros Hparse Hwf. eexists. split; [|split].
  - apply (analyze_ast_parsed code tree Hparse Hwf).
  - reflexivity.
  - simpl. unfold _calculate_complexity. rewrite count_functions. simpl. lia.
Qed.

(** C8, as the code has it.  When the source parses, ["imports"] holds the
    entries of the import statements in the order in which [ast.walk]
    reaches them, outer statements before nested ones: every name of a
    plain import, and for a from-import the one string made of the module
    and the first imported name.  For a module whose import statements all
    stand at the top level this is the order of the source text. *)
Theorem imports_in_walk_order (code : string) (tree : node) :
  ast_parse code = Ret tree ->
  wf_tree tree = true ->
  exists a,
    _analyze_ast ast_parse code = Ret (AstAnalysis a)
    /\ Analysis.imports a = flat_map import_entries (walk tree)
    /\ (forall names, import_entries (Import names) = map alias_name names)
    /\ (forall module first rest level,
          import_entries (ImportFrom module (first :: rest) level)
          = [str_opt module ++ "." ++ alias_name first])
    /\ (imports_at_top_level tree = true ->
        Analysis.imports a = flat_map import_entries (preorder tree)).
Proof.
  intros Hparse Hwf. eexists. split; [|split; [|split; [|split]]].
  - apply (analyze_ast_parsed code tree Hparse Hwf).
  - reflexivity.
  - reflexivity.
  - reflexivity.
  - simpl. intros Htop. destruct tree; try discriminate Htop.
    simpl in Htop. rewrite forallb_forall in Htop.
    assert (Hbelow : forall n, In n (flat_map descendants body) ->
                               import_entries n = []).
    { intros n Hin. apply in_flat_map in Hin as (s & Hs & Hn).
      apply import_entries_other.
      specialize (Htop s Hs). rewrite forallb_forall in Htop.
      specialize (Htop n Hn). now destruct (is_import n). }
    destruct (walk_module body) as (deeper & -> & Hdeeper).
    rewrite preorder_children. simpl.
    rewrite flat_map_app.
    rewrite (flat_map_nil import_entries deeper) by auto.
    rewrite app_nil_r.
    clear - Hbelow. induction body as [|s body IH]; simpl; [trivial|].
    rewrite preorder_children. simpl. rewrite flat_map_app.
    rewrite (flat_map_nil import_entries (flat_map preorder (iter_child_nodes s))).
    + simpl. f_equal. apply IH.
      intros n Hn. apply Hbelow. simpl. apply in_or_app. now right.
    + intros n Hn. apply Hbelow. simpl. apply in_or_app. now left.
Qed.

(** C10.  When the source parses and holds a from-import without a module
    ([from . import Y]), the statement contributes the single entry
    ["None.Y"], and ["imports"] contains it. *)
Theorem relative_import_recorded_as_None (code : string) (tree : node)
    (first : alias) (rest : list alias) (level : Z) :
  ast_parse code = Ret tree ->
  wf_tree tree = true ->
  In (ImportFrom None (first :: rest) level) (preorder tree) ->
  exists a,
    _analyze_ast ast_parse code = Ret (AstAnalysis a)
    /\ import_entries (ImportFrom None (first :: rest) level)
       = ["None." ++ alias_name first]
    /\ In ("None." ++ alias_name first) (Analysis.imports a).
Proof.
  intros Hparse Hwf Hin. eexists. split; [|split].
  - apply (analyze_ast_parsed code tree Hparse Hwf).
  - reflexivity.
  - simpl. apply in_flat_map.
    exists (ImportFrom None (first :: rest) level). split.
    + now apply in_walk_iff.
    + now left.
Qed.

End Inspector.

(** The grammatical sample trees. *)
Example sample_trees_wf :
  wf_tree Sample.tree_scenario1 = true /\ wf_tree Sample.tree_nested = true
  /\ wf_tree Sample.tree_relative = true /\ wf_tree Sample.tree_eval = true.
Proof. repeat split; reflexivity. Qed.

Lemma analyze_ast_on_parser_exception_witness :
  _analyze_ast Sample.ast_parse Sample.src_invalid
  = Ret (AstError "Syntax error: invalid syntax (<unknown>, line 1)")
  /\ ast_keys (AstError "Syntax error: invalid syntax (<unknown>, line 1)")
     = ["error"].
Proof.
  destruct (analyze_ast_on_parser_exception
              Sample.ast_parse Sample.src_invalid Sample.invalid_syntax
              eq_refl) as [Hsyntax _].
  destruct (Hsyntax eq_refl) as (r & Hrun & -> & _ & Hkeys).
  split; [exact Hrun | exact Hkeys].
Defined.

(** C3 fails as stated: a source that holds a null byte makes the parser
    of the interpreters before 3.12 raise a [ValueError], which is no
    [SyntaxError], and [_analyze_ast] raises it instead of returning a
    summary. *)
Lemma analyze_ast_raises_on_null_byte :
  SampleMore.ast_parse SampleMore.src_nul = Raise SampleMore.null_bytes
  /\ is_SyntaxError SampleMore.null_bytes = false
  /\ _analyze_ast SampleMore.ast_parse SampleMore.src_nul
     = Raise SampleMore.null_bytes
  /\ returns (_analyze_ast SampleMore.ast_parse SampleMore.src_nul) = false.
Proof. repeat split; reflexivity. Qed.

Lemma function_count_is_inventory_length_witness :
  exists a,
    _analyze_ast Sample.ast_parse Sample.src_scenario1 = Ret (AstAnalysis a)
    /\ parse_error (AstAnalysis a) = None
    /\ Complexity.functions (Analysis.complexity a)
       = Z.of_nat (length (Analysis.functions a)).
Proof.
  apply (function_count_is_inventory_length
           Sample.ast_parse Sample.src_scenario1 Sample.tree_scenario1).
  - reflexivity.
  - reflexivity.
Defined.

(** Scenario 1 of the specification, on the structural side. *)
Example scenario1_structure :
  _analyze_ast Sample.ast_parse Sample.src_scenario1
  = Ret (AstAnalysis
           (Analysis.mk ["os"] [FunctionInfo.mk "f" ["a"; "b"] 2] []
                        (Complexity.mk 0 0 1 0))).
Proof. reflexivity. Qed.

(** C8 fails as stated: in
    [def f(): import a] followed by [import b]
    the text has [a] before [b], the summary has [b] before [a]. *)
Lemma imports_not_in_source_order :
  Sample.ast_parse Sample.src_nested = Ret Sample.tree_nested
  /\ wf_tree Sample.tree_nested = true
  /\ exists a,
       _analyze_ast Sample.ast_parse Sample.src_nested = Ret (AstAnalysis a)
       /\ Analysis.imports a = ["b"; "a"]
       /\ flat_map import_entries (preorder Sample.tree_nested) = ["a"; "b"]
       /\ Analysis.imports a
          <> flat_map import_entries (preorder Sample.tree_nested).
Proof.
  split; [reflexivity|]. split; [reflexivity|].
  eexists. split; [reflexivity|]. split; [reflexivity|].
  split; [reflexivity|]. discriminate.
Qed.

Lemma imports_in_walk_order_witness :
  exists a,
    _analyze_ast Sample.ast_parse Sample.src_scenario1 = Ret (AstAnalysis a)
    /\ Analysis.imports a = flat_map import_entries (walk Sample.tree_scenario1)
    /\ Analysis.imports a
       = flat_map import_entries (preorder Sample.tree_scenario1).
Proof.
  destruct (imports_in_walk_order
              Sample.ast_parse Sample.src_scenario1 Sample.tree_scenario1
              eq_refl eq_refl)
    as (a & Hrun & Hwalk & _ & _ & Htext).
  exists a. split; [exact Hrun|]. split; [exact Hwalk|].
  apply Htext. reflexivity.
Defined.

Example scenario1_imports_at_top_level :
  imports_at_top_level Sample.tree_scenario1 = true
  /\ imports_at_top_level Sample.tree_nested = false.
Proof. split; reflexivity. Qed.

Lemma relative_import_recorded_as_None_witness :
  exists a,
    _analyze_ast Sample.ast_parse Sample.src_relative = Ret (AstAnalysis a)
    /\ import_entries (ImportFrom None [mk_alias "Y" None] 1) = ["None.Y"]
    /\ In "None.Y" (Analysis.imports a).
Proof.
  apply (relative_import_recorded_as_None
           Sample.ast_parse Sample.src_relative Sample.tree_relative
           (mk_alias "Y" None) [] 1).
  - reflexivity.
  - reflexivity.
  - simpl. right. left. reflexivity.
Defined.

(* ================================================================== *)
(** ** The formatting adapter *)
(* ================================================================== *)

Section Formatter.

Variable black_format_str : string -> outcome string.

(** C5.  [_run_black] always returns a verdict.  ["needs_formatting"] is
    true exactly when the formatter returned a text other than the input or
    raised; the verdict holds ["formatted_code"] and no ["error"] when the
    formatter returned, ["error"] (the text of the exception) and no
    ["formatted_code"] when it raised. *)
Theorem run_black_verdict (code : string) :
  exists v,
    _run_black black_format_str code = Ret v
    /\ (Black.needs_formatting v = true
        <-> (exists s, black_format_str code = Ret s /\ s <> code)
            \/ (exists e, black_format_str code = Raise e))
    /\ (forall s, black_format_str code = Ret s ->
          Black.formatted_code v = Some s /\ Black.error v = None)
    /\ (forall e, black_format_str code = Raise e ->
          Black.formatted_code v = None /\ Black.error v = Some (str_exn e)).
Proof.
  unfold _run_black.
  destruct (black_format_str code) as [s|e]; simpl; eexists;
    (split; [reflexivity|]); simpl.
  - split; [|split].
    + rewrite negb_true_iff. split.
      * intros Hne. left. exists s. split; [reflexivity|].
        now apply String.eqb_neq.
      * intros [(s' & Hs & Hne)|(e & He)]; [|discriminate He].
        injection Hs as <-. now apply String.eqb_neq.
    + intros s' Hs. injection Hs as <-. now split.
    + intros e He. discriminate He.
  - split; [|split].
    + split; [|reflexivity]. intros _. right. now exists e.
    + intros s Hs. discriminate Hs.
    + intros e' He. injection He as <-. now split.
Qed.

End Formatter.

Example run_black_already_formatted :
  _run_black Sample.black_format_str Sample.src_scenario1
  = Ret (Black.mk false (Some Sample.src_scenario1) None).
Proof. reflexivity. Qed.

Example run_black_unparsable :
  _run_black Sample.black_format_str Sample.src_invalid
  = Ret (Black.mk true None (Some ("Cannot parse: 1:6: " ++ Sample.src_invalid))).
Proof. reflexivity. Qed.

(* ================================================================== *)
(** ** The suggestion deriver *)
(* ================================================================== *)

(** C2.  The suggestions are the outputs of four rule groups, in this
    order: one ["Pylint <type>: <message> (line <line>)"] per lint message
    of type error or warning; one
    ["Security issue (<severity>): <issue> (line <line>, confidence: <confidence>)"]
    per finding of severity HIGH or MEDIUM; the formatting advisory when
    ["needs_formatting"] holds; and, unless the structure carries a parse
    error, the modules advisory when there are more than ten functions and
    the complexity advisory when there are more than five branches.
    Nothing else is emitted. *)
Theorem suggestions_are_four_rule_groups (r : analysis_results) :
  get_improvement_suggestions r
  = (map (fun m =>
            "Pylint " ++ LintMsg.type m ++ ": " ++ LintMsg.message m
              ++ " (line " ++ str_int (LintMsg.line m) ++ ")")%string
         (filter (fun m => String.eqb (LintMsg.type m) "error"
                           || String.eqb (LintMsg.type m) "warning")
                 (Results.pylint r))
     ++ map (fun f =>
               "Security issue (" ++ Finding.severity f ++ "): "
                 ++ Finding.issue f ++ " (line " ++ str_int (Finding.line f)
                 ++ ", confidence: " ++ Finding.confidence f ++ ")")%string
            (filter (fun f => String.eqb (Finding.severity f) "HIGH"
                              || String.eqb (Finding.severity f) "MEDIUM")
                    (Results.bandit r))
     ++ (if Black.needs_formatting (Results.black r)
         then ["Code formatting: Consider using Black to format your code"]
         else [])
     ++ match Results.ast_analysis r with
        | AstError _ => []
        | AstAnalysis a =>
            (if 10 <? Complexity.functions (Analysis.complexity a)
             then ["Consider breaking down the code into smaller modules"]
             else [])
            ++ (if 5 <? Complexity.branches (Analysis.complexity a)
                then ["High cyclomatic complexity detected. Consider simplifying the logic"]
                else [])
        end)%list.
Proof.
  unfold get_improvement_suggestions.
  rewrite !fold_append_filter.
  replace (filter (fun m => str_in (LintMsg.type m) ["error"; "warning"])
                  (Results.pylint r))
    with (filter (fun m => String.eqb (LintMsg.type m) "error"
                           || String.eqb (LintMsg.type m) "warning")
                 (Results.pylint r))
    by (apply filter_ext; intros m; unfold str_in; simpl;
        now rewrite orb_false_r).
  replace (filter (fun f => str_in (Finding.severity f) ["HIGH"; "MEDIUM"])
                  (Results.bandit r))
    with (filter (fun f => String.eqb (Finding.severity f) "HIGH"
                           || String.eqb (Finding.severity f) "MEDIUM")
                 (Results.bandit r))
    by (apply filter_ext; intros f; unfold str_in; simpl;
        now rewrite orb_false_r).
  unfold append, black_advisory, modules_advisory, complexity_advisory.
  cbn [app].
  destruct (Black.needs_formatting (Results.black r));
    destruct (Results.ast_analysis r) as [e|a];
    try destruct (10 <? Complexity.functions (Analysis.complexity a));
    try destruct (5 <? Complexity.branches (Analysis.complexity a));
    rewrite <- ?app_assoc, ?app_nil_r; reflexivity.
Qed.

(** Scenario 3: eleven functions bring the modules advisory exactly once. *)
Example scenario3_modules_advisory :
  get_improvement_suggestions
    (Results.mk [] [] (Black.mk false (Some EmptyString) None)
       (AstAnalysis (Analysis.mk [] (repeat (FunctionInfo.mk "f" [] 1) 11) []
                                 (Complexity.mk 0 0 11 0))))
  = [modules_advisory].
Proof. reflexivity. Qed.

(** Scenario 4: of a HIGH and a LOW finding only the HIGH one is reported. *)
Example scenario4_high_and_low :
  get_improvement_suggestions
    (Results.mk []
       [Finding.mk "exec used" "HIGH" "HIGH" 3 0;
        Finding.mk "assert used" "LOW" "HIGH" 5 0]
       (Black.mk false (Some EmptyString) None)
       (AstAnalysis (Analysis.mk [] [] [] Complexity.zero)))
  = ["Security issue (HIGH): exec used (line 3, confidence: HIGH)"].
Proof. reflexivity. Qed.

(** Convention, refactor and info messages and LOW findings bring nothing. *)
Example quiet_kinds :
  get_improvement_suggestions
    (Results.mk
       [LintMsg.mk "convention" "c" 1; LintMsg.mk "refactor" "r" 2;
        LintMsg.mk "info" "i" 3]
       [Finding.mk "x" "LOW" "LOW" 1 0]
       (Black.mk false (Some EmptyString) None)
       (AstError "Syntax error: invalid syntax"))
  = [].
Proof. reflexivity. Qed.

(* ================================================================== *)
(** ** The report formatter *)
(* ================================================================== *)

(** A guarded block: a header, then one line per item. *)
Lemma block_of_lines {A} (header : string) (f : A -> string)
    (items : list A) (output : list string) :
  (if truthy_list items
   then fold_left (fun output x => append output (f x)) items
                  (append output header)
   else output)
  = (output ++ match items with
               | [] => []
               | _ => header :: map f items
               end)%list.
Proof.
  destruct items as [|x items].
  - simpl. now rewrite app_nil_r.
  - cbn [truthy_list]. rewrite fold_append_map. unfold append.
    now rewrite <- app_assoc.
Qed.

(** A guarded block whose items render to several lines. *)
Lemma block_of_groups {A} (title : string) (render : A -> list string)
    (step : list string -> A -> list string)
    (Hstep : forall output x, step output x = (output ++ render x)%list)
    (items : list A) (output : list string) :
  (if truthy_list items
   then fold_left step items (append output (newline ++ title))
   else output)
  = (output ++ bullet_block title render items)%list.
Proof.
  destruct items as [|x items].
  - simpl. now rewrite app_nil_r.
  - cbn [truthy_list]. rewrite (fold_append_flat_map render step Hstep).
    unfold append, bullet_block. now rewrite <- app_assoc.
Qed.

Lemma formatting_block (r : analysis_results) (head : list string) :
  match Black.error (Results.black r) with
  | Some e =>
      if truthy_str e
      then append
             (if Black.needs_formatting (Results.black r)
              then append (append head black_header)
                     "Code needs formatting. Consider using Black to format the code."
              else append head black_header)
             ("Error during formatting check: " ++ e)
      else
        if Black.needs_formatting (Results.black r)
        then append (append head black_header)
               "Code needs formatting. Consider using Black to format the code."
        else append head black_header
  | None =>
      if Black.needs_formatting (Results.black r)
      then append (append head black_header)
             "Code needs formatting. Consider using Black to format the code."
      else append head black_header
  end = (head ++ spec_formatting_section r)%list.
Proof.
  unfold spec_formatting_section, append, truthy_opt_str.
  destruct (Black.error (Results.black r)) as [e|];
    [destruct (truthy_str e)|];
    destruct (Black.needs_formatting (Results.black r));
    cbn [app str_opt]; rewrite <- ?app_assoc; reflexivity.
Qed.

Lemma report_lines_sections (r : analysis_results) :
  report_lines r
  = (spec_lint_section r ++ spec_security_section r
       ++ spec_formatting_section r ++ spec_structure_section r)%list.
Proof.
  unfold report_lines. cbv zeta.
  rewrite (block_of_lines pylint_header pylint_line).
  rewrite (block_of_lines bandit_header bandit_line).
  rewrite !formatting_block.
  change (match Results.pylint r with
          | [] => []
          | _ :: _ => pylint_header :: map pylint_line (Results.pylint r)
          end) with (spec_lint_section r).
  change (match Results.bandit r with
          | [] => []
          | _ :: _ => bandit_header :: map bandit_line (Results.bandit r)
          end) with (spec_security_section r).
  cbn [app].
  unfold spec_structure_section.
  destruct (Results.ast_analysis r) as [e|a].
  - now rewrite app_nil_r, <- app_assoc.
  - rewrite (block_of_groups "Imports:" (fun imp => ["  - " ++ imp]%string))
      by reflexivity.
    rewrite (block_of_groups "Functions:"
               (fun f => [("  - " ++ FunctionInfo.name f ++ "("
                             ++ join ", " (FunctionInfo.args f) ++ ")")%string]))
      by reflexivity.
    rewrite (block_of_groups "Classes:"
               (fun c => ("  - " ++ ClassInfo.name c)%string
                           :: map (fun m => ("    * " ++ m)%string)
                                  (ClassInfo.methods c))).
    + unfold append. rewrite <- !app_assoc. reflexivity.
    + intros output c. rewrite fold_append_map. unfold append.
      now rewrite <- app_assoc.
Qed.

(** C9.  The report is the lint, security, formatting and structure
    sections in this order, each opening with its header, joined by line
    breaks.  The lint and the security section are left out exactly when
    their finding list is empty, the formatting section is never left out,
    and the structure section is left out exactly when the structure holds a
    parse error instead of structural data.  The report depends on nothing
    but the result it is given. *)
Theorem report_has_four_sections_in_order (r : analysis_results) :
  format_code_analysis_results r
  = join newline
      (spec_lint_section r ++ spec_security_section r
         ++ spec_formatting_section r ++ spec_structure_section r)
  /\ (spec_lint_section r = [] <-> Results.pylint r = [])
  /\ (hd_error (spec_lint_section r)
      = if truthy_list (Results.pylint r) then Some pylint_header else None)
  /\ (spec_security_section r = [] <-> Results.bandit r = [])
  /\ (hd_error (spec_security_section r)
      = if truthy_list (Results.bandit r) then Some bandit_header else None)
  /\ hd_error (spec_formatting_section r) = Some black_header
  /\ (spec_structure_section r = []
      <-> parse_error (Results.ast_analysis r) <> None)
  /\ (hd_error (spec_structure_section r)
      = match parse_error (Results.ast_analysis r) with
        | None => Some structure_header
        | Some _ => None
        end)
  /\ (forall r', r' = r ->
        format_code_analysis_results r' = format_code_analysis_results r).
Proof.
  split.
  { unfold format_code_analysis_results. now rewrite report_lines_sections. }
  unfold spec_lint_section, spec_security_section, spec_structure_section.
  destruct r as [lint sec blk [e|a]]; cbn [Results.pylint Results.bandit
    Results.black Results.ast_analysis parse_error];
    destruct lint, sec; cbn [truthy_list hd_error];
    repeat split; try reflexivity; try discriminate; try congruence;
    intros; subst; reflexivity.
Qed.

(** The report of scenario 1, from a run of the whole pipeline. *)
Example scenario1_report :
  format_code_analysis_results
    (Results.mk [] [] (Black.mk false (Some Sample.src_scenario1) None)
       (AstAnalysis
          (Analysis.mk ["os"] [FunctionInfo.mk "f" ["a"; "b"] 2] []
                       (Complexity.mk 0 0 1 0))))
  = join newline
      [ black_header; structure_header;
        "Functions: 1"; "Classes: 0"; "Branches: 0"; "Loops: 0";
        newline ++ "Imports:"; "  - os";
        newline ++ "Functions:"; "  - f(a, b)" ].
Proof. reflexivity. Qed.

(* ================================================================== *)
(** ** The aggregator and the stateful adapters *)
(* ================================================================== *)

Section Pipeline.

Variable pylint_Run : list string -> world -> outcome (list LintMsg.t).
Variable bandit_BanditManager : outcome BanditManager.
Variable bandit_discover : list string -> world -> outcome (list string).
Variable bandit_scan : list string -> world -> outcome (list Issue.t).
Variable black_format_str : string -> outcome string.
Variable ast_parse : string -> outcome node.

Local Abbreviation run_pylint := (_run_pylint pylint_Run).
Local Abbreviation run_bandit := (_run_bandit bandit_BanditManager bandit_discover bandit_scan).
Local Abbreviation analyze :=
  (analyze_code pylint_Run bandit_BanditManager bandit_discover bandit_scan black_format_str
                ast_parse).

(** [_run_black] never raises. *)
Lemma run_black_returns (code : string) :
  exists v,
    _run_black black_format_str code = Ret v
    /\ forall e, black_format_str code = Raise e ->
         Black.error v = Some (str_exn e).
Proof.
  unfold _run_black. destruct (black_format_str code) as [s|e]; simpl;
    eexists; (split; [reflexivity|]); intros e' He'.
  - discriminate He'.
  - now injection He' as <-.
Qed.

(** The reporter only ever grows: a run of [_run_pylint] leaves the
    messages it found in place and puts the new diagnostics behind them. *)
Lemma run_pylint_appends (code : string) (file_path : option string)
    (st st' : state) (h : list_ref) :
  run_pylint code file_path st = (Ret h, st') ->
  exists diags,
    deref st' h = (messages (pylint_reporter st) ++ diags)%list.
Proof.
  unfold _run_pylint, abind, write_file, Run, set_source, aret.
  intros H.
  destruct (truthy_path file_path) as [p|].
  - destruct (assoc p (open_errors (fs st))); [discriminate H|].
    cbn [fs pylint_reporter] in H.
    match type of H with
    | context [pylint_Run ?a ?w] => destruct (pylint_Run a w) as [d|e]
    end; [|discriminate H].
    injection H as <- <-. now exists d.
  - destruct (pylint_Run ["--from-stdin"] (fs st)) as [d|e]; [|discriminate H].
    injection H as <- <-. now exists d.
Qed.

(** Without a path the scan is over before the source text is mentioned:
    the findings are the same for every text. *)
Lemma run_bandit_in_memory_ignores_source (code1 code2 : string) (st : state) :
  run_bandit code1 None st = run_bandit code2 None st.
Proof.
  unfold _run_bandit, abind, new_BanditManager, lift, discover_files,
    run_tests, aret.
  cbn [truthy_path].
  destruct bandit_BanditManager as [m|e]; [|reflexivity].
  destruct (bandit_discover ["-"] (fs st)) as [fl|e]; simpl; [|reflexivity].
  destruct (bandit_scan fl (fs st)) as [found|e]; reflexivity.
Qed.

(** C1, as the code has it.  [analyze_code] runs the four sub-analyses in
    turn and catches nothing itself.  An exception of the lint or of the
    security adapter leaves [analyze_code] as it is.  When both return,
    [analyze_code] returns the complete four-key result: a failure of the
    formatter, and a [SyntaxError] of the parser, are caught inside their
    own adapter and stand in that sub-result's error entry. *)
Theorem analyze_code_outcome (code : string) (file_path : option string)
    (st : state) :
  (forall e, ast_parse code = Raise e -> is_SyntaxError e = true) ->
  (forall tree, ast_parse code = Ret tree -> wf_tree tree = true) ->
  match run_pylint code file_path st with
  | (Raise e, st1) => analyze code file_path st = (Raise e, st1)
  | (Ret lint, st1) =>
      match run_bandit code file_path st1 with
      | (Raise e, st2) => analyze code file_path st = (Raise e, st2)
      | (Ret security, st2) =>
          exists formatting structure,
            analyze code file_path st
            = (Ret (Results.mk lint security formatting structure), st2)
            /\ _run_black black_format_str code = Ret formatting
            /\ _analyze_ast ast_parse code = Ret structure
            /\ (forall e, black_format_str code = Raise e ->
                  Black.error formatting = Some (str_exn e))
            /\ (forall e, ast_parse code = Raise e ->
                  parse_error structure
                  = Some ("Syntax error: " ++ str_exn e))
      end
  end.
Proof.
  intros Hraise Hret.
  unfold analyze_code, abind, lift, aret.
  destruct (run_pylint code file_path st) as [[lint|e] st1]; [|reflexivity].
  destruct (run_bandit code file_path st1) as [[security|e] st2]; [|reflexivity].
  destruct (run_black_returns code) as (formatting & Hblack & Herr).
  rewrite Hblack.
  destruct (ast_parse code) as [tree|e] eqn:Hparse.
  - rewrite (analyze_ast_parsed ast_parse code tree Hparse (Hret tree eq_refl)).
    eexists _, _. repeat split; try reflexivity; try assumption.
    intros e He. discriminate He.
  - rewrite (analyze_ast_syntax_error ast_parse code e Hparse (Hraise e eq_refl)).
    eexists _, _. repeat split; try reflexivity; try assumption.
    intros e' He'. now injection He' as <-.
Qed.

End Pipeline.

(** The whole pipeline on a source that does not parse: a complete result
    with both failures recorded as data. *)
Lemma analyze_code_outcome_witness :
  exists formatting structure,
    analyze_code Sample.pylint_Run Sample.new_manager Sample.bandit_discover Sample.bandit_scan
                 Sample.black_format_str Sample.ast_parse
                 Sample.src_invalid (Some "a.py") (__init__ Sample.empty_world)
    = (Ret (Results.mk ReporterMessages [] formatting structure),
       mk_state JSONReporter
                (mk_world [("a.py", Sample.src_invalid);
                           ("a.py", Sample.src_invalid)] [] EmptyString))
    /\ _run_black Sample.black_format_str Sample.src_invalid = Ret formatting
    /\ _analyze_ast Sample.ast_parse Sample.src_invalid = Ret structure
    /\ (forall e, Sample.black_format_str Sample.src_invalid = Raise e ->
          Black.error formatting = Some (str_exn e))
    /\ (forall e, Sample.ast_parse Sample.src_invalid = Raise e ->
          parse_error structure = Some ("Syntax error: " ++ str_exn e)).
Proof.
  refine (analyze_code_outcome
            Sample.pylint_Run Sample.new_manager Sample.bandit_discover Sample.bandit_scan
            Sample.black_format_str Sample.ast_parse
            Sample.src_invalid (Some "a.py") (__init__ Sample.empty_world)
            _ _).
  - intros e H. vm_compute in H. injection H as <-. reflexivity.
  - intros tree H. vm_compute in H. discriminate H.
Defined.

(** C1 fails as stated: when the linter cannot run, [analyze_code] raises
    the linter's exception instead of returning a result. *)
Lemma analyze_code_propagates_lint_failure :
  Sample.broken_pylint_Run ["a.py"]
    (mk_world [("a.py", Sample.src_scenario1)] [] EmptyString)
  = Raise Sample.crash
  /\ analyze_code Sample.broken_pylint_Run Sample.new_manager Sample.bandit_discover
                  Sample.bandit_scan Sample.black_format_str Sample.ast_parse
                  Sample.src_scenario1 (Some "a.py")
                  (__init__ Sample.empty_world)
     = (Raise Sample.crash,
        mk_state JSONReporter
                 (mk_world [("a.py", Sample.src_scenario1)] [] EmptyString)).
Proof. split; reflexivity. Qed.

(** C6 on the code.  For every behaviour of the tools, the run without a
    path has the same outcome for every source text: the manager is built
    and the scan of ["-"] is run before the text is attached.  With the
    constructor of the released library, which cannot be called without
    arguments, either mode raises its [TypeError] and returns no finding.
    With a manager that can be built, the scan of the file reports the
    call of [eval] and the run without a path reports nothing. *)
Theorem run_bandit_never_scans_the_text :
  (forall bandit_BanditManager bandit_discover bandit_scan code1 code2 st,
     _run_bandit bandit_BanditManager bandit_discover bandit_scan code1 None st
     = _run_bandit bandit_BanditManager bandit_discover bandit_scan
                   code2 None st)
  /\ fst (_run_bandit SampleMore.released_BanditManager Sample.bandit_discover
                      Sample.bandit_scan Sample.src_eval None
                      (__init__ Sample.empty_world))
     = Raise SampleMore.missing_arguments
  /\ fst (_run_bandit SampleMore.released_BanditManager Sample.bandit_discover
                      Sample.bandit_scan Sample.src_eval (Some "a.py")
                      (__init__ Sample.empty_world))
     = Raise SampleMore.missing_arguments
  /\ fst (_run_bandit Sample.new_manager Sample.bandit_discover
                      Sample.bandit_scan Sample.src_eval (Some "a.py")
                      (__init__ Sample.empty_world))
     = Ret [Finding.mk
              "Use of possibly insecure function - consider using safer ast.literal_eval."
              "MEDIUM" "HIGH" 1 0]
  /\ fst (_run_bandit Sample.new_manager Sample.bandit_discover
                      Sample.bandit_scan Sample.src_eval None
                      (__init__ Sample.empty_world))
     = Ret [].
Proof.
  split; [|repeat split; reflexivity].
  intros mgr discover scan code1 code2 st.
  apply run_bandit_in_memory_ignores_source.
Qed.

(** C7 on the code: the same request twice on one analyzer.  The first
    result reads one warning, the second reads it twice, and after the
    second call so does the first result, which holds the same list. *)
Theorem second_analysis_repeats_first_findings :
  let analyze :=
    analyze_code Sample.pylint_Run Sample.new_manager Sample.bandit_discover Sample.bandit_scan
                 Sample.black_format_str Sample.ast_parse
                 Sample.src_scenario1 (Some "a.py") in
  exists r1 st1 r2 st2,
    analyze (__init__ Sample.empty_world) = (Ret r1, st1)
    /\ analyze st1 = (Ret r2, st2)
    /\ Results.pylint (read st1 r1) = [Sample.unused_import]
    /\ Results.pylint (read st2 r2)
       = [Sample.unused_import; Sample.unused_import]
    /\ Results.pylint (read st2 r1)
       = [Sample.unused_import; Sample.unused_import].
Proof.
  cbv zeta. eexists _, _, _, _.
  split; [reflexivity|]. split; [reflexivity|].
  repeat split; reflexivity.
Qed.

(** Scenario 1 through the whole pipeline with a quiet linter: nothing to
    suggest. *)
Example scenario1_no_suggestions :
  let run :=
    analyze_code (fun _ _ => Ret []) Sample.new_manager Sample.bandit_discover Sample.bandit_scan
                 Sample.black_format_str Sample.ast_parse
                 Sample.src_scenario1 None (__init__ Sample.empty_world) in
  match fst run with
  | Ret r => get_improvement_suggestions (read (snd run) r) = []
  | Raise _ => False
  end.
Proof. reflexivity. Qed.

Example conversions :
  str_int 12 = "12" /\ str_int (-7) = "-7" /\ str_int 0 = "0"
  /\ upper "warning" = "WARNING".
Proof. repeat split; reflexivity. Qed.

(* ================================================================== *)
(** ** More on the structural inspector *)
(* ================================================================== *)

Lemma filter_length_perm {A} (p : A -> bool) (l l' : list A) :
  Permutation l l' -> length (filter p l) = length (filter p l').
Proof.
  induction 1 as [|x l l' _ IH|x y l|l l' l'' _ IH1 _ IH2]; simpl.
  - reflexivity.
  - destruct (p x); simpl; congruence.
  - destruct (p x), (p y); reflexivity.
  - congruence.
Qed.

(** The counting loop, counter by counter. *)
Lemma count_node_counts (nodes : list node) :
  forall c,
    fold_left count_node nodes c
    = Complexity.mk (Complexity.branches c + count is_branch nodes)
                    (Complexity.loops c + count is_loop nodes)
                    (Complexity.functions c + count is_function nodes)
                    (Complexity.classes c + count is_class nodes).
Proof.
  unfold count.
  induction nodes as [|n nodes IH]; intros c.
  - destruct c; simpl. f_equal; lia.
  - cbn [fold_left]. rewrite IH.
    destruct n; cbn [count_node filter is_branch is_loop is_function is_class
                     Complexity.branches Complexity.loops Complexity.functions
                     Complexity.classes length];
      f_equal; lia.
Qed.

(** X1.  Each complexity counter is the number of nodes of its kind in the
    whole tree, at any depth: conditionals, [try] blocks and handlers for
    ["branches"], [for] and [while] for ["loops"], function and class
    definitions for the other two. *)
Theorem complexity_counts_whole_tree (tree : node) :
  _calculate_complexity tree
  = Complexity.mk (count is_branch (preorder tree))
                  (count is_loop (preorder tree))
                  (count is_function (preorder tree))
                  (count is_class (preorder tree)).
Proof.
  unfold _calculate_complexity. rewrite count_node_counts.
  unfold count, Complexity.zero. simpl.
  rewrite !(filter_length_perm _ _ _ (walk_complete tree)). reflexivity.
Qed.

Lemma class_entries_length (nodes : list node) :
  Z.of_nat (length (flat_map class_entries nodes)) = count is_class nodes.
Proof.
  unfold count. induction nodes as [|n nodes IH]; simpl; [reflexivity|].
  rewrite length_app. destruct n; simpl in *; lia.
Qed.

(** A node of a subtree is a node of the tree. *)
Lemma preorder_subtree (k : nat) :
  forall tree n, (size tree <= k)%nat ->
    In n (preorder tree) -> incl (preorder n) (preorder tree).
Proof.
  induction k as [|k IH]; intros tree n Hsz Hin.
  - pose proof (size_pos tree). lia.
  - rewrite preorder_children in Hin. destruct Hin as [<-|Hin].
    + apply incl_refl.
    + apply in_flat_map in Hin as (c & Hc & Hn).
      assert (Hsub : incl (preorder c) (preorder tree)).
      { intros x Hx. rewrite (preorder_children tree). right.
        apply in_flat_map. now exists c. }
      intros x Hx. apply Hsub. revert x Hx. apply IH; [|exact Hn].
      rewrite size_children in Hsz.
      assert (size c <= forest_size (iter_child_nodes tree))%nat; [|lia].
      clear - Hc. induction (iter_child_nodes tree) as [|y l IHl];
        [easy|]. simpl. destruct Hc as [->|Hc]; [lia|].
      specialize (IHl Hc). lia.
Qed.

Lemma child_in_tree (tree n c : node) :
  In n (preorder tree) -> In c (iter_child_nodes n) -> In c (preorder tree).
Proof.
  intros Hn Hc. apply (preorder_subtree (size tree) tree n (le_n _) Hn).
  rewrite preorder_children. right. apply in_flat_map. exists c. split; trivial.
  rewrite preorder_children. now left.
Qed.

(** A name among the methods comes from a function definition of the body. *)
Lemma method_names_in (body : list node) (m : string) :
  In m (method_names body) ->
  exists args lineno children, In (FunctionDef m args lineno children) body.
Proof.
  induction body as [|n body IH]; simpl; [easy|].
  destruct n; try (intros H; destruct (IH H) as (ar & ln & ch & Hin);
                   exists ar, ln, ch; now right).
  simpl. intros [<-|H].
  - exists args, lineno, children. now left.
  - destruct (IH H) as (ar & ln & ch & Hin). exists ar, ln, ch. now right.
Qed.

Section InspectorMore.

Variable ast_parse : string -> outcome node.

(** X2.  When the source parses, the walk loses and repeats nothing: the
    import, function and class lists of the summary hold exactly the entries
    of the statements of the text, each as often as it occurs; only the
    order may differ from the order of the text. *)
Theorem inventories_cover_the_tree (code : string) (tree : node) :
  ast_parse code = Ret tree ->
  wf_tree tree = true ->
  exists a,
    _analyze_ast ast_parse code = Ret (AstAnalysis a)
    /\ Permutation (Analysis.imports a)
                   (flat_map import_entries (preorder tree))
    /\ Permutation (Analysis.functions a)
                   (flat_map function_entries (preorder tree))
    /\ Permutation (Analysis.classes a)
                   (flat_map class_entries (preorder tree)).
Proof.
  intros Hparse Hwf. eexists. split.
  - apply (analyze_ast_parsed ast_parse code tree Hparse Hwf).
  - simpl. repeat split; apply Permutation_flat_map, walk_complete.
Qed.

(** X3.  When the source parses, the ["classes"] counter equals the number
    of entries of the class inventory. *)
Theorem class_count_is_inventory_length (code : string) (tree : node) :
  ast_parse code = Ret tree ->
  wf_tree tree = true ->
  exists a,
    _analyze_ast ast_parse code = Ret (AstAnalysis a)
    /\ Complexity.classes (Analysis.complexity a)
       = Z.of_nat (length (Analysis.classes a)).
Proof.
  intros Hparse Hwf. eexists. split.
  - apply (analyze_ast_parsed ast_parse code tree Hparse Hwf).
  - simpl. unfold _calculate_complexity. rewrite count_node_counts.
    rewrite class_entries_length. reflexivity.
Qed.

(** X4.  When the source parses, every method listed under a class is also
    an entry of the function inventory, under the same name. *)
Theorem methods_are_in_function_inventory (code : string) (tree : node)
    (a : Analysis.t) (c : ClassInfo.t) (m : string) :
  ast_parse code = Ret tree ->
  wf_tree tree = true ->
  _analyze_ast ast_parse code = Ret (AstAnalysis a) ->
  In c (Analysis.classes a) ->
  In m (ClassInfo.methods c) ->
  exists f, In f (Analysis.functions a) /\ FunctionInfo.name f = m.
Proof.
  intros Hparse Hwf Hrun Hc Hm.
  rewrite (analyze_ast_parsed ast_parse code tree Hparse Hwf) in Hrun.
  injection Hrun as <-. simpl in *.
  apply in_flat_map in Hc as (n & Hn & Hentry).
  destruct n; simpl in Hentry; try easy.
  destruct Hentry as [<-|[]]. simpl in Hm.
  apply method_names_in in Hm as (args & ln & ch & Hbody).
  exists (FunctionInfo.mk m args ln). split; [|reflexivity].
  apply in_flat_map. exists (FunctionDef m args ln ch). split; [|now left].
  apply in_walk_iff. apply in_walk_iff in Hn.
  apply (child_in_tree tree _ _ Hn). simpl.
  apply in_or_app. right. apply in_or_app. now left.
Qed.

(** X5.  An exception of the parser that is not a [SyntaxError] is not
    caught: [_analyze_ast] raises it. *)
Theorem analyze_ast_other_exception (code : string) (e : exn) :
  ast_parse code = Raise e ->
  is_SyntaxError e = false ->
  _analyze_ast ast_parse code = Raise e.
Proof.
  intros Hparse Hcls. unfold _analyze_ast. rewrite Hparse. simpl.
  now rewrite Hcls.
Qed.

End InspectorMore.

Lemma inventories_cover_the_tree_witness :
  exists a,
    _analyze_ast Sample.ast_parse Sample.src_nested = Ret (AstAnalysis a)
    /\ Permutation (Analysis.imports a) ["a"; "b"]
    /\ Permutation (Analysis.functions a) [FunctionInfo.mk "f" [] 1]
    /\ Permutation (Analysis.classes a) [].
Proof.
  apply (inventories_cover_the_tree
           Sample.ast_parse Sample.src_nested Sample.tree_nested).
  - reflexivity.
  - reflexivity.
Defined.

Lemma class_count_is_inventory_length_witness :
  exists a,
    _analyze_ast SampleMore.ast_parse SampleMore.src_class = Ret (AstAnalysis a)
    /\ Complexity.classes (Analysis.complexity a)
       = Z.of_nat (length (Analysis.classes a)).
Proof.
  apply (class_count_is_inventory_length
           SampleMore.ast_parse SampleMore.src_class SampleMore.tree_class).
  - reflexivity.
  - reflexivity.
Defined.

Lemma methods_are_in_function_inventory_witness :
  exists f,
    In f [FunctionInfo.mk "g" ["self"] 2] /\ FunctionInfo.name f = "g".
Proof.
  apply (methods_are_in_function_inventory
           SampleMore.ast_parse SampleMore.src_class SampleMore.tree_class
           (Analysis.mk [] [FunctionInfo.mk "g" ["self"] 2]
                        [ClassInfo.mk "C" ["g"] 1] (Complexity.mk 1 1 1 1))
           (ClassInfo.mk "C" ["g"] 1) "g").
  - reflexivity.
  - reflexivity.
  - reflexivity.
  - simpl. now left.
  - simpl. now left.
Defined.

Lemma analyze_ast_other_exception_witness :
  _analyze_ast SampleMore.ast_parse SampleMore.src_nul
  = Raise SampleMore.null_bytes.
Proof.
  apply (analyze_ast_other_exception SampleMore.ast_parse SampleMore.src_nul).
  - reflexivity.
  - reflexivity.
Defined.

Example class_source_complexity :
  _calculate_complexity SampleMore.tree_class = Complexity.mk 1 1 1 1.
Proof. reflexivity. Qed.

(* ================================================================== *)
(** ** What a run does to the files and to the reporter *)
(* ================================================================== *)



Section Effects.

Variable pylint_Run : list string -> world -> outcome (list LintMsg.t).
Variable bandit_BanditManager : outcome BanditManager.
Variable bandit_discover : list string -> world -> outcome (list string).
Variable bandit_scan : list string -> world -> outcome (list Issue.t).
Variable black_format_str : string -> outcome string.
Variable ast_parse : string -> outcome node.

Local Abbreviation run_pylint := (_run_pylint pylint_Run).
Local Abbreviation run_bandit := (_run_bandit bandit_BanditManager bandit_discover bandit_scan).
Local Abbreviation analyze :=
  (analyze_code pylint_Run bandit_BanditManager bandit_discover bandit_scan black_format_str
                ast_parse).

(** The files after [_run_pylint], whatever its outcome. *)
Lemma run_pylint_files (code : string) (file_path : option string)
    (st st' : state) (o : outcome list_ref) :
  run_pylint code file_path st = (o, st') ->
  match truthy_path file_path with
  | None => fs st' = fs st
  | Some p =>
      match assoc p (open_errors (fs st)) with
      | Some e => o = Raise e /\ st' = st
      | None => fs st' = written p code (fs st)
      end
  end.
Proof.
  unfold _run_pylint, abind, write_file, Run, set_source, aret.
  intros H.
  destruct (truthy_path file_path) as [p|].
  - destruct (assoc p (open_errors (fs st))).
    + now injection H as <- <-.
    + cbn [fs pylint_reporter] in H.
      match type of H with
      | context [pylint_Run ?a ?w] => destruct (pylint_Run a w)
      end; now injection H as <- <-.
  - destruct (pylint_Run ["--from-stdin"] (fs st));
      now injection H as <- <-.
Qed.

(** The reporter after [_run_pylint], whatever its outcome. *)
Lemma run_pylint_messages (code : string) (file_path : option string)
    (st st' : state) (o : outcome list_ref) :
  run_pylint code file_path st = (o, st') ->
  exists diags,
    messages (pylint_reporter st')
    = (messages (pylint_reporter st) ++ diags)%list.
Proof.
  unfold _run_pylint, abind, write_file, Run, set_source, aret.
  intros H.
  destruct (truthy_path file_path) as [p|].
  - destruct (assoc p (open_errors (fs st))).
    + injection H as <- <-. exists []. now rewrite app_nil_r.
    + cbn [fs pylint_reporter] in H.
      match type of H with
      | context [pylint_Run ?a ?w] => destruct (pylint_Run a w) as [d|e]
      end; injection H as <- <-.
      * now exists d.
      * exists []. now rewrite app_nil_r.
  - destruct (pylint_Run ["--from-stdin"] (fs st)) as [d|e];
      injection H as <- <-.
    + now exists d.
    + exists []. now rewrite app_nil_r.
Qed.

(** The state after [_run_bandit], whatever its outcome. *)
Lemma run_bandit_state (code : string) (file_path : option string)
    (st st' : state) (o : outcome (list Finding.t)) :
  run_bandit code file_path st = (o, st') ->
  pylint_reporter st' = pylint_reporter st
  /\ match truthy_path file_path with
     | None => st' = st
     | Some p =>
         match assoc p (open_errors (fs st)) with
         | Some e => o = Raise e /\ st' = st
         | None => fs st' = written p code (fs st)
         end
     end.
Proof.
  unfold _run_bandit, abind, write_file, new_BanditManager, lift,
    discover_files, run_tests, aret.
  intros H.
  destruct (truthy_path file_path) as [p|].
  - destruct (assoc p (open_errors (fs st))).
    + now injection H as <- <-.
    + destruct bandit_BanditManager as [m|e]; [|now injection H as <- <-].
      cbn [fs pylint_reporter] in H.
      match type of H with
      | context [bandit_discover ?a ?w] =>
          destruct (bandit_discover a w) as [fl|e]
      end; cbn [bind files_list] in H; [|now injection H as <- <-].
      match type of H with
      | context [bandit_scan ?a ?w] => destruct (bandit_scan a w)
      end; now injection H as <- <-.
  - destruct bandit_BanditManager as [m|e]; [|now injection H as <- <-].
    destruct (bandit_discover ["-"] (fs st)) as [fl|e];
      cbn [bind files_list] in H; [|now injection H as <- <-].
    destruct (bandit_scan fl (fs st)); now injection H as <- <-.
Qed.

(** [analyze_code] ends in the state its last adapter call left. *)
Lemma analyze_code_state (code : string) (file_path : option string)
    (st st' : state) (o : outcome (Results.t list_ref)) :
  analyze code file_path st = (o, st') ->
  (exists e, run_pylint code file_path st = (Raise e, st') /\ o = Raise e)
  \/ (exists h st1 o2,
        run_pylint code file_path st = (Ret h, st1)
        /\ run_bandit code file_path st1 = (o2, st')
        /\ forall e, o2 = Raise e -> o = Raise e).
Proof.
  unfold analyze_code, abind, lift, aret. intros H.
  destruct (_run_pylint pylint_Run code file_path st) as [[h|e] st1].
  - right. exists h, st1.
    destruct (_run_bandit bandit_BanditManager bandit_discover bandit_scan code file_path st1)
      as [[b|e] st2].
    + exists (Ret b).
      destruct (_run_black black_format_str code);
        [destruct (_analyze_ast ast_parse code)|];
        injection H as <- <-; repeat split; intros e0 He0; discriminate He0.
    + exists (Raise e). injection H as <- <-. repeat split.
      intros e' He'. now injection He' as <-.
  - left. exists e. now injection H as <- <-.
Qed.


(** X7.  With a path that cannot be opened for writing, [analyze_code]
    raises the error of [open] at once: no tool has run, and the reporter
    and the files are as before. *)
Theorem analyze_code_unwritable_path (code p : string) (st : state) (e : exn) :
  truthy_str p = true ->
  assoc p (open_errors (fs st)) = Some e ->
  analyze code (Some p) st = (Raise e, st).
Proof.
  intros Hp Hopen.
  unfold analyze_code, _run_pylint, abind, write_file. simpl.
  now rewrite Hp, Hopen.
Qed.

(** X8.  Without a path (none, or the empty string) [analyze_code] writes
    nothing: the files are as before, whatever the tools do. *)
Theorem analyze_code_in_memory_writes_nothing (code : string)
    (file_path : option string) (st st' : state)
    (o : outcome (Results.t list_ref)) :
  truthy_path file_path = None ->
  analyze code file_path st = (o, st') ->
  fs st' = fs st.
Proof.
  intros Hpath Hrun.
  apply analyze_code_state in Hrun
    as [(e & Hlint & _)|(h & st1 & o2 & Hlint & Hsec & _)].
  - apply run_pylint_files in Hlint. now rewrite Hpath in Hlint.
  - apply run_pylint_files in Hlint. rewrite Hpath in Hlint.
    apply run_bandit_state in Hsec as [_ Hsec]. rewrite Hpath in Hsec.
    congruence.
Qed.

(** X10.  Whatever its outcome, [analyze_code] only adds to the reporter:
    the messages collected before the call are still there afterwards, in
    front and in the same order. *)
Theorem analyze_code_keeps_earlier_messages (code : string)
    (file_path : option string) (st st' : state)
    (o : outcome (Results.t list_ref)) :
  analyze code file_path st = (o, st') ->
  exists diags,
    messages (pylint_reporter st')
    = (messages (pylint_reporter st) ++ diags)%list.
Proof.
  intros Hrun.
  apply analyze_code_state in Hrun
    as [(e & Hlint & _)|(h & st1 & o2 & Hlint & Hsec & _)].
  - now apply run_pylint_messages in Hlint.
  - apply run_pylint_messages in Hlint as (d & Hd).
    apply run_bandit_state in Hsec as [Hrep _].
    exists d. now rewrite Hrep.
Qed.

End Effects.


Lemma analyze_code_unwritable_path_witness :
  analyze_code Sample.pylint_Run Sample.new_manager Sample.bandit_discover Sample.bandit_scan
               Sample.black_format_str Sample.ast_parse
               Sample.src_eval (Some "a.py")
               (__init__ SampleMore.read_only_file)
  = (Raise SampleMore.permission_denied, __init__ SampleMore.read_only_file).
Proof.
  apply (analyze_code_unwritable_path
           Sample.pylint_Run Sample.new_manager Sample.bandit_discover Sample.bandit_scan
           Sample.black_format_str Sample.ast_parse).
  - reflexivity.
  - reflexivity.
Defined.

Lemma analyze_code_in_memory_writes_nothing_witness :
  fs (snd (analyze_code Sample.pylint_Run Sample.new_manager Sample.bandit_discover
             Sample.bandit_scan Sample.black_format_str Sample.ast_parse
             Sample.src_eval (Some EmptyString)
             (__init__ SampleMore.one_file)))
  = SampleMore.one_file.
Proof.
  apply (analyze_code_in_memory_writes_nothing
           Sample.pylint_Run Sample.new_manager Sample.bandit_discover Sample.bandit_scan
           Sample.black_format_str Sample.ast_parse
           Sample.src_eval (Some EmptyString) (__init__ SampleMore.one_file) _
           (fst (analyze_code Sample.pylint_Run Sample.new_manager Sample.bandit_discover
                   Sample.bandit_scan Sample.black_format_str Sample.ast_parse
                   Sample.src_eval (Some EmptyString)
                   (__init__ SampleMore.one_file)))).
  - reflexivity.
  - reflexivity.
Defined.

Lemma analyze_code_keeps_earlier_messages_witness :
  let st :=
    mk_state (mk_reporter [LintMsg.mk "error" "earlier" 9] None)
             SampleMore.one_file in
  exists diags,
    messages
      (pylint_reporter
         (snd (analyze_code Sample.pylint_Run Sample.new_manager Sample.bandit_discover
                 Sample.bandit_scan Sample.black_format_str Sample.ast_parse
                 Sample.src_scenario1 (Some "a.py") st)))
    = (LintMsg.mk "error" "earlier" 9 :: diags).
Proof.
  cbv zeta.
  apply (analyze_code_keeps_earlier_messages
           Sample.pylint_Run Sample.new_manager Sample.bandit_discover Sample.bandit_scan
           Sample.black_format_str Sample.ast_parse
           Sample.src_scenario1 (Some "a.py")
           (mk_state (mk_reporter [LintMsg.mk "error" "earlier" 9] None)
                     SampleMore.one_file) _
           (fst (analyze_code Sample.pylint_Run Sample.new_manager Sample.bandit_discover
                   Sample.bandit_scan Sample.black_format_str Sample.ast_parse
                   Sample.src_scenario1 (Some "a.py")
                   (mk_state (mk_reporter [LintMsg.mk "error" "earlier" 9] None)
                             SampleMore.one_file)))).
  reflexivity.
Defined.

(* ================================================================== *)
(** ** A click on [Analyze Code] *)
(* ================================================================== *)

Section Click.

Variable pylint_Run : list string -> world -> outcome (list LintMsg.t).
Variable bandit_BanditManager : outcome BanditManager.
Variable bandit_discover : list string -> world -> outcome (list string).
Variable bandit_scan : list string -> world -> outcome (list Issue.t).
Variable black_format_str : string -> outcome string.
Variable ast_parse : string -> outcome node.

Local Abbreviation analyze :=
  (analyze_code pylint_Run bandit_BanditManager bandit_discover bandit_scan black_format_str
                ast_parse).
Local Abbreviation click :=
  (MainWindow_analyze_code pylint_Run bandit_BanditManager bandit_discover bandit_scan
                           black_format_str ast_parse).

(** X12.  When the file of the selected path cannot be opened for writing,
    a click ends in the error box with the message of [open]: the analysis
    writes the file before it runs any tool, so nothing is analysed and the
    result area keeps its text. *)
Theorem click_on_read_only_file (win : window) (st : state)
    (code : string) (e : exn) :
  String.eqb (file_path_label win) "No file selected" = false ->
  truthy_str (file_path_label win) = true ->
  read_file (fs st) (file_path_label win) = Some code ->
  assoc (file_path_label win) (open_errors (fs st)) = Some e ->
  click win st
  = (mk_window (file_path_label win) (analysis_text win) false (0, 0)
               "Error occurred"
               (dialogs win
                  ++ [Critical "Error" ("An error occurred: " ++ str_exn e)]),
     st).
Proof.
  intros Hsel Hp Hread Hopen.
  unfold MainWindow_analyze_code, WorkerThread_run, open_read.
  rewrite Hsel, Hread.
  unfold analyze_code, _run_pylint, abind, write_file. simpl.
  rewrite Hp, Hopen. reflexivity.
Qed.

(** X13.  When the linter raises on the selected file, a click ends in the
    error box with the linter's message and the result area keeps its text:
    the exception that [analyze_code] lets through is caught by the worker
    thread. *)
Theorem click_shows_linter_failure (win : window) (st : state)
    (code : string) (e : exn) :
  String.eqb (file_path_label win) "No file selected" = false ->
  truthy_str (file_path_label win) = true ->
  read_file (fs st) (file_path_label win) = Some code ->
  assoc (file_path_label win) (open_errors (fs st)) = None ->
  pylint_Run [file_path_label win]
             (written (file_path_label win) code (fs st)) = Raise e ->
  fst (click win st)
  = mk_window (file_path_label win) (analysis_text win) false (0, 0)
              "Error occurred"
              (dialogs win
                 ++ [Critical "Error" ("An error occurred: " ++ str_exn e)]).
Proof.
  intros Hsel Hp Hread Hopen Hlint.
  unfold MainWindow_analyze_code, WorkerThread_run, open_read.
  rewrite Hsel, Hread.
  unfold analyze_code, _run_pylint, abind, write_file, Run. simpl.
  rewrite Hp, Hopen. cbn [fs pylint_reporter].
  unfold written in Hlint. rewrite Hlint. reflexivity.
Qed.

End Click.

Lemma click_on_read_only_file_witness :
  MainWindow_analyze_code Sample.pylint_Run Sample.new_manager Sample.bandit_discover
    Sample.bandit_scan Sample.black_format_str Sample.ast_parse
    SampleMore.window_on_a_py (__init__ SampleMore.read_only_file)
  = (mk_window "a.py" EmptyString false (0, 0) "Error occurred"
       [Critical "Error"
          "An error occurred: [Errno 13] Permission denied: 'a.py'"],
     __init__ SampleMore.read_only_file).
Proof.
  apply (click_on_read_only_file
           Sample.pylint_Run Sample.new_manager Sample.bandit_discover Sample.bandit_scan
           Sample.black_format_str Sample.ast_parse
           SampleMore.window_on_a_py (__init__ SampleMore.read_only_file)
           Sample.src_scenario1 SampleMore.permission_denied).
  - reflexivity.
  - reflexivity.
  - reflexivity.
  - reflexivity.
Defined.

Lemma click_shows_linter_failure_witness :
  fst (MainWindow_analyze_code Sample.broken_pylint_Run Sample.new_manager Sample.bandit_discover
         Sample.bandit_scan Sample.black_format_str Sample.ast_parse
         SampleMore.window_on_a_py (__init__ SampleMore.one_file))
  = mk_window "a.py" EmptyString false (0, 0) "Error occurred"
      [Critical "Error" "An error occurred: pylint crashed"].
Proof.
  apply (click_shows_linter_failure
           Sample.broken_pylint_Run Sample.new_manager Sample.bandit_discover Sample.bandit_scan
           Sample.black_format_str Sample.ast_parse
           SampleMore.window_on_a_py (__init__ SampleMore.one_file)
           Sample.src_scenario1 Sample.crash).
  - reflexivity.
  - reflexivity.
  - reflexivity.
  - reflexivity.
  - reflexivity.
Defined.

(** A click that succeeds: the report of scenario 1 with the linter's
    warning, and no message box. *)
Example click_shows_report :
  let win :=
    fst (MainWindow_analyze_code Sample.pylint_Run Sample.new_manager Sample.bandit_discover
           Sample.bandit_scan Sample.black_format_str Sample.ast_parse
           SampleMore.window_on_a_py (__init__ SampleMore.one_file)) in
  status_message win = "Analysis completed"
  /\ dialogs win = []
  /\ progress_visible win = false
  /\ String.prefix "=== Pylint Analysis ===" (analysis_text win) = true.
Proof. repeat split; reflexivity. Qed.

(* ================================================================== *)
(** ** More on the suggestions *)
(* ================================================================== *)

(** The four rule groups, by name. *)
Lemma suggestions_groups (r : analysis_results) :
  get_improvement_suggestions r
  = (map pylint_suggestion
         (filter (fun m => str_in (LintMsg.type m) ["error"; "warning"])
                 (Results.pylint r))
     ++ map bandit_suggestion
            (filter (fun f => str_in (Finding.severity f) ["HIGH"; "MEDIUM"])
                    (Results.bandit r))
     ++ (if Black.needs_formatting (Results.black r)
         then [black_advisory] else [])
     ++ match Results.ast_analysis r with
        | AstError _ => []
        | AstAnalysis a =>
            (if 10 <? Complexity.functions (Analysis.complexity a)
             then [modules_advisory] else [])
            ++ (if 5 <? Complexity.branches (Analysis.complexity a)
                then [complexity_advisory] else [])
        end)%list.
Proof.
  unfold get_improvement_suggestions.
  rewrite !fold_append_filter. unfold append. cbn [app].
  destruct (Black.needs_formatting (Results.black r));
    destruct (Results.ast_analysis r) as [e|a];
    try destruct (10 <? Complexity.functions (Analysis.complexity a));
    try destruct (5 <? Complexity.branches (Analysis.complexity a));
    rewrite <- ?app_assoc, ?app_nil_r; reflexivity.
Qed.

Lemma count_occ_map_other {A} (f : A -> string) (s : string) (l : list A) :
  (forall x, f x <> s) -> count_occ string_dec (map f l) s = O.
Proof.
  intros Hne. induction l as [|x l IH]; simpl; [reflexivity|].
  destruct (string_dec (f x) s) as [Heq|_]; [now apply Hne in Heq | exact IH].
Qed.

Lemma pylint_suggestion_shape (m : LintMsg.t) :
  pylint_suggestion m <> black_advisory
  /\ pylint_suggestion m <> modules_advisory
  /\ pylint_suggestion m <> complexity_advisory.
Proof. repeat split; discriminate. Qed.

Lemma bandit_suggestion_shape (f : Finding.t) :
  bandit_suggestion f <> black_advisory
  /\ bandit_suggestion f <> modules_advisory
  /\ bandit_suggestion f <> complexity_advisory.
Proof. repeat split; discriminate. Qed.

(** X14.  Each of the three fixed advisories stands in the list exactly once
    when its condition holds and not at all otherwise, whatever the messages
    of the lint and security findings say: the formatting advisory for
    ["needs_formatting"], the modules advisory for more than ten functions
    and the complexity advisory for more than five branches, the last two
    only without a parse error. *)
Theorem advisories_appear_once (r : analysis_results) :
  count_occ string_dec (get_improvement_suggestions r) black_advisory
  = (if Black.needs_formatting (Results.black r) then 1 else 0)%nat
  /\ count_occ string_dec (get_improvement_suggestions r) modules_advisory
     = match Results.ast_analysis r with
       | AstError _ => O
       | AstAnalysis a =>
           if 10 <? Complexity.functions (Analysis.complexity a)
           then 1%nat else O
       end
  /\ count_occ string_dec (get_improvement_suggestions r) complexity_advisory
     = match Results.ast_analysis r with
       | AstError _ => O
       | AstAnalysis a =>
           if 5 <? Complexity.branches (Analysis.complexity a)
           then 1%nat else O
       end.
Proof.
  rewrite suggestions_groups. rewrite !count_occ_app.
  rewrite !count_occ_map_other
    by (intros x; first [apply pylint_suggestion_shape
                        | apply bandit_suggestion_shape]).
  destruct (Black.needs_formatting (Results.black r));
    destruct (Results.ast_analysis r) as [e|a];
    try destruct (10 <? Complexity.functions (Analysis.complexity a));
    try destruct (5 <? Complexity.branches (Analysis.complexity a));
    repeat split; vm_compute; reflexivity.
Qed.

Lemma filter_nil_iff {A} (p : A -> bool) (l : list A) :
  filter p l = [] <-> forall x, In x l -> p x = false.
Proof.
  induction l as [|x l IH]; simpl.
  - split; [intros _ y [] | reflexivity].
  - destruct (p x) eqn:Hpx.
    + split; [discriminate|]. intros H. specialize (H x (or_introl eq_refl)).
      congruence.
    + rewrite IH. split.
      * intros H y [<-|Hy]; auto.
      * intros H y Hy. apply H. now right.
Qed.

Lemma map_nil_iff {A B} (f : A -> B) (l : list A) : map f l = [] <-> l = [].
Proof. destruct l; simpl; split; congruence. Qed.

(** X15.  There is nothing to suggest exactly when no lint message is an
    error or a warning, no security finding is HIGH or MEDIUM, the code
    needs no formatting, and the structure either carries a parse error or
    has at most ten functions and at most five branches. *)
Theorem no_suggestions_iff (r : analysis_results) :
  get_improvement_suggestions r = []
  <-> (forall m, In m (Results.pylint r) ->
         LintMsg.type m <> "error" /\ LintMsg.type m <> "warning")
      /\ (forall f, In f (Results.bandit r) ->
            Finding.severity f <> "HIGH" /\ Finding.severity f <> "MEDIUM")
      /\ Black.needs_formatting (Results.black r) = false
      /\ match Results.ast_analysis r with
         | AstError _ => True
         | AstAnalysis a =>
             Complexity.functions (Analysis.complexity a) <= 10
             /\ Complexity.branches (Analysis.complexity a) <= 5
         end.
Proof.
  rewrite suggestions_groups.
  assert (Hkind : forall x a b,
            str_in x [a; b] = false <-> x <> a /\ x <> b).
  { intros x a b. unfold str_in. simpl. rewrite orb_false_r, orb_false_iff.
    now rewrite !String.eqb_neq. }
  split.
  - intros H.
    apply app_eq_nil in H as [Hlint H].
    apply app_eq_nil in H as [Hsec H].
    apply app_eq_nil in H as [Hfmt Hstruct].
    apply map_nil_iff in Hlint. apply map_nil_iff in Hsec.
    rewrite filter_nil_iff in Hlint. rewrite filter_nil_iff in Hsec.
    split; [|split; [|split]].
    + intros m Hm. apply Hkind. now apply Hlint.
    + intros f Hf. apply Hkind. now apply Hsec.
    + now destruct (Black.needs_formatting (Results.black r)).
    + destruct (Results.ast_analysis r) as [e|a]; [exact I|].
      apply app_eq_nil in Hstruct as [Hf Hb].
      destruct (Z.ltb_spec 10 (Complexity.functions (Analysis.complexity a)));
        [discriminate Hf|].
      destruct (Z.ltb_spec 5 (Complexity.branches (Analysis.complexity a)));
        [discriminate Hb|].
      split; lia.
  - intros (Hlint & Hsec & Hfmt & Hstruct).
    assert (filter (fun m => str_in (LintMsg.type m) ["error"; "warning"])
                   (Results.pylint r) = []) as ->.
    { apply filter_nil_iff. intros m Hm. apply Hkind. now apply Hlint. }
    assert (filter (fun f => str_in (Finding.severity f) ["HIGH"; "MEDIUM"])
                   (Results.bandit r) = []) as ->.
    { apply filter_nil_iff. intros f Hf. apply Hkind. now apply Hsec. }
    rewrite Hfmt. simpl.
    destruct (Results.ast_analysis r) as [e|a]; [reflexivity|].
    destruct Hstruct as [Hf Hb].
    destruct (Z.ltb_spec 10 (Complexity.functions (Analysis.complexity a)));
      [lia|].
    destruct (Z.ltb_spec 5 (Complexity.branches (Analysis.complexity a)));
      [lia|].
    reflexivity.
Qed.

Section Degraded.

Variable pylint_Run : list string -> world -> outcome (list LintMsg.t).
Variable bandit_BanditManager : outcome BanditManager.
Variable bandit_discover : list string -> world -> outcome (list string).
Variable bandit_scan : list string -> world -> outcome (list Issue.t).
Variable black_format_str : string -> outcome string.
Variable ast_parse : string -> outcome node.

Local Abbreviation analyze :=
  (analyze_code pylint_Run bandit_BanditManager bandit_discover bandit_scan black_format_str
                ast_parse).

(** The last two entries of a returned result. *)
Lemma analyze_code_entries (code : string) (file_path : option string)
    (st st' : state) (r : Results.t list_ref) :
  analyze code file_path st = (Ret r, st') ->
  _run_black black_format_str code = Ret (Results.black r)
  /\ _analyze_ast ast_parse code = Ret (Results.ast_analysis r).
Proof.
  unfold analyze_code, abind, lift, aret. intros H.
  destruct (_run_pylint pylint_Run code file_path st) as [[h|e] st1];
    [|discriminate H].
  destruct (_run_bandit bandit_BanditManager bandit_discover bandit_scan code file_path st1)
    as [[b|e] st2]; [|discriminate H].
  destruct (_run_black black_format_str code) as [v|e]; [|discriminate H].
  destruct (_analyze_ast ast_parse code) as [a|e]; [|discriminate H].
  injection H as <- <-. now split.
Qed.

(** X16.  Suggestions for a result that [analyze_code] returned: when the
    parser failed on the source, neither structural advisory is among them;
    when the formatter failed on it, the formatting advisory is. *)
Theorem suggestions_for_degraded_result (code : string)
    (file_path : option string) (st st' : state) (r : Results.t list_ref) :
  analyze code file_path st = (Ret r, st') ->
  (forall e, ast_parse code = Raise e ->
     ~ In modules_advisory (get_improvement_suggestions (read st' r))
     /\ ~ In complexity_advisory (get_improvement_suggestions (read st' r)))
  /\ (forall e, black_format_str code = Raise e ->
        In black_advisory (get_improvement_suggestions (read st' r))).
Proof.
  intros Hrun. apply analyze_code_entries in Hrun as [Hblack Hast].
  rewrite suggestions_groups.
  cbn [read Results.pylint Results.bandit Results.black Results.ast_analysis].
  split.
  - intros e He. unfold _analyze_ast in Hast. rewrite He in Hast.
    simpl in Hast. destruct (is_SyntaxError e); [|discriminate Hast].
    injection Hast as Hast. rewrite <- Hast. rewrite app_nil_r.
    split; intros Hin;
      (apply in_app_or in Hin as [Hin|Hin];
       [apply in_map_iff in Hin as (m & Hm & _);
        now apply (pylint_suggestion_shape m) in Hm|];
       apply in_app_or in Hin as [Hin|Hin];
       [apply in_map_iff in Hin as (f & Hf & _);
        now apply (bandit_suggestion_shape f) in Hf|];
       destruct (Black.needs_formatting (Results.black r));
       [destruct Hin as [Hin|[]]; discriminate Hin | destruct Hin]).
  - intros e He. unfold _run_black in Hblack. rewrite He in Hblack.
    simpl in Hblack. injection Hblack as Hblack. rewrite <- Hblack.
    cbn [Black.needs_formatting].
    apply in_or_app. right. apply in_or_app. right. now left.
Qed.

End Degraded.

Lemma suggestions_for_degraded_result_witness :
  let run :=
    analyze_code Sample.pylint_Run Sample.new_manager Sample.bandit_discover Sample.bandit_scan
                 Sample.black_format_str Sample.ast_parse
                 Sample.src_invalid None (__init__ Sample.empty_world) in
  let r :=
    Results.mk ReporterMessages []
      (Black.mk true None (Some ("Cannot parse: 1:6: " ++ Sample.src_invalid)))
      (AstError "Syntax error: invalid syntax (<unknown>, line 1)") in
  fst run = Ret r
  /\ ~ In modules_advisory (get_improvement_suggestions (read (snd run) r))
  /\ ~ In complexity_advisory (get_improvement_suggestions (read (snd run) r))
  /\ In black_advisory (get_improvement_suggestions (read (snd run) r)).
Proof.
  cbv zeta. split; [reflexivity|].
  destruct (suggestions_for_degraded_result
              Sample.pylint_Run Sample.new_manager Sample.bandit_discover Sample.bandit_scan
              Sample.black_format_str Sample.ast_parse
              Sample.src_invalid None (__init__ Sample.empty_world)
              (snd (analyze_code Sample.pylint_Run Sample.new_manager Sample.bandit_discover
                      Sample.bandit_scan Sample.black_format_str
                      Sample.ast_parse Sample.src_invalid None
                      (__init__ Sample.empty_world)))
              (Results.mk ReporterMessages []
                 (Black.mk true None
                    (Some ("Cannot parse: 1:6: " ++ Sample.src_invalid)))
                 (AstError "Syntax error: invalid syntax (<unknown>, line 1)")))
    as [Hparse Hfmt].
  - reflexivity.
  - destruct (Hparse Sample.invalid_syntax eq_refl) as [H1 H2].
    split; [exact H1|]. split; [exact H2|].
    apply (Hfmt (mk_exn (OtherException "InvalidInput")
                        ("Cannot parse: 1:6: " ++ Sample.src_invalid))).
    reflexivity.
Defined.

(* ================================================================== *)
(** ** More on the report *)
(* ================================================================== *)

Lemma concat_head (sep x : string) (l : list string) :
  exists rest, String.concat sep (x :: l) = x ++ rest.
Proof.
  destruct l as [|y l]; simpl.
  - exists EmptyString. clear. induction x as [|c x IH]; simpl; congruence.
  - eexists. reflexivity.
Qed.

Lemma append_empty (a b : string) :
  a ++ b = EmptyString -> a = EmptyString.
Proof. destruct a; simpl; [reflexivity | discriminate]. Qed.

Lemma concat_not_empty (sep s : string) (l : list string) :
  In s l -> s <> EmptyString -> String.concat sep l <> EmptyString.
Proof.
  induction l as [|x l IH]; intros Hin Hs; [easy|].
  destruct Hin as [->|Hin].
  - destruct (concat_head sep s l) as (rest & ->).
    intros H. now apply append_empty in H.
  - destruct l as [|y l]; [easy|].
    change (String.concat sep (x :: y :: l))
      with (x ++ sep ++ String.concat sep (y :: l)).
    intros H. destruct x; simpl in H; [|discriminate H].
    destruct sep; simpl in H; [|discriminate H].
    now apply (IH Hin Hs).
Qed.

(** Each block of the formatter leaves the lines before it in place and,
    when its entry is there, adds its header and what follows it. *)
Lemma raw_blocks_shape (raw : Raw.results) (output : list string) :
  (exists tail,
     Raw.pylint_block raw output
     = (output ++ if Raw.truthy_entry (Raw.pylint raw)
                  then pylint_header :: tail else [])%list)
  /\ (exists tail,
        Raw.bandit_block raw output
        = (output ++ if Raw.truthy_entry (Raw.bandit raw)
                     then bandit_header :: tail else [])%list)
  /\ (exists tail,
        Raw.black_block raw output
        = (output ++ match Raw.black raw with
                     | Some _ => black_header :: tail
                     | None => []
                     end)%list)
  /\ (exists tail,
        Raw.ast_block raw output
        = (output ++ match Raw.ast_analysis raw with
                     | Some (AstAnalysis _) => structure_header :: tail
                     | _ => []
                     end)%list).
Proof.
  destruct raw as [lint sec blk ast].
  unfold Raw.pylint_block, Raw.bandit_block, Raw.black_block, Raw.ast_block.
  cbn [Raw.pylint Raw.bandit Raw.black Raw.ast_analysis Raw.truthy_entry].
  split; [|split; [|split]].
  - destruct lint as [[|m l]|]; cbn [truthy_list].
    + exists []. now rewrite app_nil_r.
    + cbv zeta. rewrite fold_append_map. unfold append.
      rewrite <- app_assoc. eexists. reflexivity.
    + exists []. now rewrite app_nil_r.
  - destruct sec as [[|f l]|]; cbn [truthy_list].
    + exists []. now rewrite app_nil_r.
    + cbv zeta. rewrite fold_append_map. unfold append.
      rewrite <- app_assoc. eexists. reflexivity.
    + exists []. now rewrite app_nil_r.
  - destruct blk as [b|]; [|exists []; now rewrite app_nil_r].
    cbv zeta. unfold append.
    destruct (Black.needs_formatting b);
      destruct (Black.error b) as [e|]; try destruct (truthy_str e);
      rewrite <- ?app_assoc; eexists; reflexivity.
  - destruct ast as [[e|a]|]; try (exists []; now rewrite app_nil_r).
    cbv zeta.
    rewrite (block_of_groups "Imports:" (fun imp => ["  - " ++ imp]%string))
      by reflexivity.
    rewrite (block_of_groups "Functions:"
               (fun f => [("  - " ++ FunctionInfo.name f ++ "("
                             ++ join ", " (FunctionInfo.args f) ++ ")")%string]))
      by reflexivity.
    rewrite (block_of_groups "Classes:"
               (fun c => ("  - " ++ ClassInfo.name c)%string
                           :: map (fun m => ("    * " ++ m)%string)
                                  (ClassInfo.methods c))).
    + unfold append. rewrite <- !app_assoc. eexists. reflexivity.
    + intros out c. rewrite fold_append_map. unfold append.
      now rewrite <- app_assoc.
Qed.

(** On a complete result the two formatters are one. *)
Lemma raw_report_of_results (r : analysis_results) :
  Raw.report_lines (Raw.of_results r) = report_lines r.
Proof. destruct r as [lint sec blk [e|a]]; reflexivity. Qed.

(** X17.  [format_code_analysis_results] returns the empty string exactly
    when the dictionary has no lint messages, no security findings, no
    formatting entry and no structural analysis (no entry for it, or one
    with a parse error): each section that is there brings its header.  On
    a complete result it never is empty. *)
Theorem report_is_empty_iff :
  (forall raw,
     Raw.format_code_analysis_results raw = EmptyString
     <-> Raw.truthy_entry (Raw.pylint raw) = false
         /\ Raw.truthy_entry (Raw.bandit raw) = false
         /\ Raw.black raw = None
         /\ forall a, Raw.ast_analysis raw <> Some (AstAnalysis a))
  /\ (forall r,
        Raw.format_code_analysis_results (Raw.of_results r)
        = format_code_analysis_results r
        /\ format_code_analysis_results r <> EmptyString).
Proof.
  assert (Hiff : forall raw,
     Raw.format_code_analysis_results raw = EmptyString
     <-> Raw.truthy_entry (Raw.pylint raw) = false
         /\ Raw.truthy_entry (Raw.bandit raw) = false
         /\ Raw.black raw = None
         /\ forall a, Raw.ast_analysis raw <> Some (AstAnalysis a)).
  { intros raw.
    unfold Raw.format_code_analysis_results, Raw.report_lines, join.
    cbv zeta.
    destruct (raw_blocks_shape raw []) as ((t1 & ->) & _).
    match goal with
    | |- context [Raw.bandit_block raw ?o] =>
        destruct (raw_blocks_shape raw o) as (_ & (t2 & ->) & _)
    end.
    match goal with
    | |- context [Raw.black_block raw ?o] =>
        destruct (raw_blocks_shape raw o) as (_ & _ & (t3 & ->) & _)
    end.
    match goal with
    | |- context [Raw.ast_block raw ?o] =>
        destruct (raw_blocks_shape raw o) as (_ & _ & _ & (t4 & ->))
    end.
    cbn [app].
    split.
    - intros Hempty.
      assert (Hno : forall h l, In h l -> h <> EmptyString ->
                                String.concat newline l <> EmptyString)
        by (intros h l; apply concat_not_empty).
      split; [|split; [|split]].
      + destruct (Raw.truthy_entry (Raw.pylint raw)); [|reflexivity].
        exfalso. revert Hempty. apply (Hno pylint_header); [|discriminate].
        apply in_or_app. left. apply in_or_app. left. apply in_or_app. left.
        now left.
      + destruct (Raw.truthy_entry (Raw.bandit raw)); [|reflexivity].
        exfalso. revert Hempty. apply (Hno bandit_header); [|discriminate].
        apply in_or_app. left. apply in_or_app. left. apply in_or_app. right.
        now left.
      + destruct (Raw.black raw); [|reflexivity].
        exfalso. revert Hempty. apply (Hno black_header); [|discriminate].
        apply in_or_app. left. apply in_or_app. right. now left.
      + intros a Ha. rewrite Ha in Hempty.
        revert Hempty. apply (Hno structure_header); [|discriminate].
        apply in_or_app. right. now left.
    - intros (Hlint & Hsec & Hblk & Hast).
      rewrite Hlint, Hsec, Hblk.
      destruct (Raw.ast_analysis raw) as [[e|a]|]; try reflexivity.
      now destruct (Hast a). }
  split; [exact Hiff|].
  intros r. split.
  - unfold Raw.format_code_analysis_results, format_code_analysis_results.
    now rewrite raw_report_of_results.
  - intros Hempty.
    assert (Hraw : Raw.format_code_analysis_results (Raw.of_results r)
                   = EmptyString).
    { unfold Raw.format_code_analysis_results, format_code_analysis_results
        in *. now rewrite raw_report_of_results. }
    apply Hiff in Hraw as (_ & _ & Hblk & _). discriminate Hblk.
Qed.

(** The formatter on the empty dictionary, and on one that holds only a
    parse error. *)
Example report_of_nothing :
  Raw.format_code_analysis_results (Raw.mk None None None None) = EmptyString
  /\ Raw.format_code_analysis_results
       (Raw.mk (Some []) None None (Some (AstError "Syntax error: x")))
     = EmptyString.
Proof. split; reflexivity. Qed.

(** X18.  The report opens with the lint header when there are lint
    messages, and with a line break otherwise: every other section header
    carries a leading line break. *)
Theorem report_opening (r : analysis_results) :
  exists rest,
    format_code_analysis_results r
    = match Results.pylint r with
      | [] => newline ++ rest
      | _ :: _ => pylint_header ++ rest
      end.
Proof.
  unfold format_code_analysis_results, join.
  rewrite report_lines_sections.
  unfold spec_lint_section, spec_security_section, spec_formatting_section.
  destruct (Results.pylint r) as [|m lint].
  - destruct (Results.bandit r) as [|f sec]; cbn [app].
    + match goal with
      | |- context [String.concat _ (?x :: ?l)] =>
          destruct (concat_head newline x l) as (rest & ->)
      end.
      eexists. reflexivity.
    + match goal with
      | |- context [String.concat _ (?x :: ?l)] =>
          destruct (concat_head newline x l) as (rest & ->)
      end.
      eexists. reflexivity.
  - cbn [app].
    match goal with
    | |- context [String.concat _ (?x :: ?l)] =>
        destruct (concat_head newline x l) as (rest & ->)
    end.
    eexists. reflexivity.
Qed.

(** X19.  The report shows every lint message and every security finding,
    of whatever kind or severity: nothing is filtered. *)
Theorem report_shows_every_finding (r : analysis_results) :
  (forall m, In m (Results.pylint r) -> In (pylint_line m) (report_lines r))
  /\ (forall f, In f (Results.bandit r) -> In (bandit_line f) (report_lines r)).
Proof.
  rewrite report_lines_sections.
  unfold spec_lint_section, spec_security_section. split.
  - intros m Hm. apply in_or_app. left.
    destruct (Results.pylint r) as [|x l] eqn:E; [easy|].
    right. now apply in_map.
  - intros f Hf. apply in_or_app. right. apply in_or_app. left.
    destruct (Results.bandit r) as [|x l] eqn:E; [easy|].
    right. now apply in_map.
Qed.

Section SilentFailure.

Variable black_format_str : string -> outcome string.

(** X20.  When the formatter fails with an exception whose text is empty,
    the formatting section of the report is its header and the
    needs-formatting line and nothing more: the empty ["error"] entry
    brings no error line. *)
Theorem report_of_silent_formatter_failure (code : string) (e : exn)
    (r : analysis_results) :
  black_format_str code = Raise e ->
  str_exn e = EmptyString ->
  _run_black black_format_str code = Ret (Results.black r) ->
  Black.error (Results.black r) = Some EmptyString
  /\ report_lines r
     = (spec_lint_section r ++ spec_security_section r
          ++ [black_header;
              "Code needs formatting. Consider using Black to format the code."]
          ++ spec_structure_section r)%list.
Proof.
  intros Hraise Hmsg Hrun.
  unfold _run_black in Hrun. rewrite Hraise in Hrun. simpl in Hrun.
  injection Hrun as Hblack. rewrite Hmsg in Hblack.
  rewrite report_lines_sections. unfold spec_formatting_section.
  rewrite <- Hblack. simpl. split; reflexivity.
Qed.

End SilentFailure.

Lemma report_of_silent_formatter_failure_witness :
  let r :=
    Results.mk [] [] (Black.mk true None (Some EmptyString))
               (AstError "Syntax error: invalid syntax") in
  Black.error (Results.black r) = Some EmptyString
  /\ report_lines r
     = [black_header;
        "Code needs formatting. Consider using Black to format the code."].
Proof.
  cbv zeta.
  apply (report_of_silent_formatter_failure
           SampleMore.silent_black_format_str Sample.src_invalid
           SampleMore.silent_failure
           (Results.mk [] [] (Black.mk true None (Some EmptyString))
                       (AstError "Syntax error: invalid syntax"))).
  - reflexivity.
  - reflexivity.
  - reflexivity.
Defined.
